(** * coinHunter: the paper-trading core

    A shallow embedding of the Solana pool sniper's core modules:
    - [tradingLogic.js]  (the position ledger and its pricing helpers),
    - [exitStrategy.js]  (the per-position exit rules),
    - [tokenAnalyzer.js] (the pool qualifier).

    JavaScript numbers are modelled as exact rationals [Q]: every
    arithmetic expression of the source is kept term for term, but it is
    evaluated without IEEE-754 rounding and without NaN or infinities.
    Where the source divides by a variable, the division is guarded here
    the way the source guards it (the pricing helpers) or carries the
    JavaScript result of a zero divisor explicitly (the profit ratio of the
    exit rules).  Time stamps are integer milliseconds ([Z]).

    [config.js] is not part of the modelled sources: its constants are the
    fields of a [Config] record that every function takes as a parameter.
    The external collaborators (price feed, mint lookup, pool reserves,
    [Math.random], [Date.now]) are inputs of the functions that consult
    them. *)

From Stdlib Require Import QArith Qminmax Lqa Lia ZArith List String Bool.
Import ListNotations.

Local Open Scope Q_scope.

(** ** Configuration ([config.js], taken as a parameter) *)

Record Config := mkConfig {
  VIRTUAL_BUDGET_SOL : Q;
  TRADE_SIZE_SOL : Q;
  MAX_CONCURRENT_POSITIONS : nat;
  RAYDIUM_FEE_PERCENT : Q;
  PROFIT_TARGET_PERCENT : Q;
  TRADE_TIME_LIMIT_MINUTES : Q;
  TRAILING_STOP_PERCENT : Q;
  MIN_LIQUIDITY_SOL : Q;
  MAX_POOL_AGE_MINUTES : Q
}.

(** The defaults the product requirements give: 5 SOL budget, 0.5 SOL per
    trade, 10 positions, 0.25% fee, 15% target, 60 minutes, 5% trail,
    10 SOL minimum liquidity, 5 minutes maximum pool age. *)
Definition default_config : Config :=
  mkConfig 5 (1 # 2) 10 (25 # 10000) (15 # 100) 60 (5 # 100) 10 5.

(** ** Comparisons of the source, as booleans *)

(** [a < b] *)
Definition Qltb (a b : Q) : bool := negb (Qle_bool b a).

(** [a > b] *)
Definition Qgtb (a b : Q) : bool := Qltb b a.

(** [a >= b] *)
Definition Qgeb (a b : Q) : bool := Qle_bool b a.

(** ** Pricing helpers ([tradingLogic.js]) *)

Definition calculateTokensForSol
    (solAmount currentPriceInSol feePercent slippagePercent : Q) : Q :=
  if Qle_bool currentPriceInSol 0 then 0
  else
    let solAfterFee := solAmount * (1 - feePercent) in
    let tokensBeforeSlippage := solAfterFee / currentPriceInSol in
    let tokensAfterSlippage := tokensBeforeSlippage * (1 - slippagePercent) in
    tokensAfterSlippage.

Definition calculateSolForTokens
    (tokenAmount currentPriceInSol feePercent slippagePercent : Q) : Q :=
  if Qle_bool currentPriceInSol 0 then 0
  else
    let tokensToSell := tokenAmount in
    let solBeforeFeeAndSlippage := tokensToSell * currentPriceInSol in
    let solAfterFee := solBeforeFeeAndSlippage * (1 - feePercent) in
    let solAfterSlippage := solAfterFee * (1 - slippagePercent) in
    solAfterSlippage.

(** ** The ledger ([tradingLogic.js]) *)

Record Position := mkPosition {
  tokenMintAddress : string;
  poolId : string;
  buyPrice : Q;
  buyTimestamp : Z;
  tokenAmount : Q;
  peakPrice : Q;
  tradeSizeSol : Q
}.

(** The record [simulateSell] hands to [logCompletedTrade]: the position's
    fields ([...position]) and the five fields of the sale. *)
Record CompletedTrade := mkCompletedTrade {
  soldFields : Position;
  sellPrice : Q;
  solProceeds : Q;
  exitReason : string;
  sellTimestamp : Z;
  profitOrLoss : Q
}.

(** The module's two variables, [virtualBudget] and [activePositions],
    together with the two files it writes: the active-trades file (the array
    last given to [saveActiveTrades], whose write is taken to succeed) and
    the completed-trades log. *)
Record Ledger := mkLedger {
  virtualBudget : Q;
  activePositions : list Position;
  activeTradesFile : list Position;
  completedTrades : list CompletedTrade
}.

(** The state when the module is loaded:
    [let virtualBudget = VIRTUAL_BUDGET_SOL; let activePositions = [];]
    next to whatever an earlier run left in the active-trades file. *)
Definition module_load (cfg : Config) (file : list Position) : Ledger :=
  mkLedger (VIRTUAL_BUDGET_SOL cfg) [] file [].

(** [p => p.tokenMintAddress === tokenMint] *)
Definition mint_is (tokenMint : string) (p : Position) : bool :=
  String.eqb (tokenMintAddress p) tokenMint.

Definition loadActiveTrades (s : Ledger) : list Position :=
  activeTradesFile s.

Definition initializeTrading (s : Ledger) : Ledger :=
  let loadedTrades := loadActiveTrades s in
  let s1 :=
    if (0 <? List.length loadedTrades)%nat
    then mkLedger (virtualBudget s) loadedTrades
                  (activeTradesFile s) (completedTrades s)
    else s in
  if Qltb (virtualBudget s1) 0
  then mkLedger 0 (activePositions s1)
                (activeTradesFile s1) (completedTrades s1)
  else s1.

Definition canBuy (cfg : Config) (s : Ledger) (tokenMint : string) : bool :=
  if Qltb (virtualBudget s) (TRADE_SIZE_SOL cfg) then false
  else if (MAX_CONCURRENT_POSITIONS cfg <=? List.length (activePositions s))%nat
  then false
  else if existsb (mint_is tokenMint) (activePositions s) then false
  else true.

(** [Math.random() * (0.05 - 0.01) + 0.01], for the draw [rnd]. *)
Definition buySlippage (rnd : Q) : Q :=
  rnd * ((5 # 100) - (1 # 100)) + (1 # 100).

(** [Math.random() * (0.03 - 0.01) + 0.01], for the draw [rnd]. *)
Definition sellSlippage (rnd : Q) : Q :=
  rnd * ((3 # 100) - (1 # 100)) + (1 # 100).

(** [simulateBuy]: [rnd] is the value [Math.random()] returns and [now] the
    value of [Date.now()].  The result pairs the new state with the returned
    position ([None] for [null]). *)
Definition simulateBuy (cfg : Config) (s : Ledger)
    (tokenMint pool : string) (currentPriceInSol rnd : Q) (now : Z)
    : Ledger * option Position :=
  if negb (canBuy cfg s tokenMint) then (s, None)
  else
    let simulatedSlippagePercent := buySlippage rnd in
    let calculatedTokenAmount :=
      calculateTokensForSol (TRADE_SIZE_SOL cfg) currentPriceInSol
                            (RAYDIUM_FEE_PERCENT cfg)
                            simulatedSlippagePercent in
    if Qeq_bool calculatedTokenAmount 0 || Qle_bool calculatedTokenAmount 0
    then (s, None)
    else
      let newPosition :=
        mkPosition tokenMint pool currentPriceInSol now
                   calculatedTokenAmount currentPriceInSol
                   (TRADE_SIZE_SOL cfg) in
      let positions := activePositions s ++ [newPosition] in
      (mkLedger (virtualBudget s - TRADE_SIZE_SOL cfg) positions
                positions (completedTrades s),
       Some newPosition).

(** [simulateSell]: the position argument may be [null] ([None]); the result
    pairs the new state with [{ solProceeds, soldPosition }]. *)
Definition simulateSell (cfg : Config) (s : Ledger)
    (position : option Position) (currentPriceInSol : Q)
    (reason : string) (rnd : Q) (now : Z)
    : Ledger * option (Q * Position) :=
  match position with
  | None => (s, None)
  | Some position =>
    match find (mint_is (tokenMintAddress position)) (activePositions s) with
    | None => (s, None)
    | Some _ =>
      let simulatedSlippagePercent := sellSlippage rnd in
      let calculatedSolProceeds :=
        calculateSolForTokens (tokenAmount position) currentPriceInSol
                              (RAYDIUM_FEE_PERCENT cfg)
                              simulatedSlippagePercent in
      if Qltb calculatedSolProceeds 0 then (s, None)
      else
        let completedTradeData :=
          mkCompletedTrade position currentPriceInSol calculatedSolProceeds
                           reason now
                           (calculatedSolProceeds - tradeSizeSol position) in
        let positions :=
          filter (fun p => negb (mint_is (tokenMintAddress position) p))
                 (activePositions s) in
        (mkLedger (virtualBudget s + calculatedSolProceeds) positions
                  positions (completedTrades s ++ [completedTradeData]),
         Some (calculatedSolProceeds, position))
    end
  end.

Definition set_peak (p : Position) (price : Q) : Position :=
  mkPosition (tokenMintAddress p) (poolId p) (buyPrice p) (buyTimestamp p)
             (tokenAmount p) price (tradeSizeSol p).

(** The array after [position.peakPrice = price] on the object [find]
    returned: the first position of that mint is the one that changes. *)
Fixpoint assign_peak (tokenMint : string) (price : Q) (l : list Position)
    : list Position :=
  match l with
  | [] => []
  | p :: rest =>
    if mint_is tokenMint p then set_peak p price :: rest
    else p :: assign_peak tokenMint price rest
  end.

Definition updatePeakPrice (s : Ledger) (tokenMint : string)
    (currentPriceInSol : Q) : Ledger :=
  match find (mint_is tokenMint) (activePositions s) with
  | Some position =>
    if Qgtb currentPriceInSol (peakPrice position) then
      let positions :=
        assign_peak tokenMint currentPriceInSol (activePositions s) in
      mkLedger (virtualBudget s) positions positions (completedTrades s)
    else s
  | None => s
  end.

Definition getActivePositions (s : Ledger) : list Position :=
  activePositions s.

Definition getVirtualBudget (s : Ledger) : Q := virtualBudget s.

(** ** The exit rules ([exitStrategy.js]) *)

(** [(current - buy) / buy >= target].  A zero [buy] makes the JavaScript
    quotient [Infinity], [-Infinity] or [NaN] by the sign of the numerator,
    and only [Infinity] passes the comparison. *)
Definition profit_reached (current buy target : Q) : bool :=
  if Qeq_bool buy 0 then Qgtb (current - buy) 0
  else Qgeb ((current - buy) / buy) target.

(** [(now - buyTimestamp) / (1000 * 60)] *)
Definition elapsedMinutes (now buyTs : Z) : Q :=
  inject_Z (now - buyTs) / inject_Z (1000 * 60).

(** What one call of [checkExitConditions] did: the new ledger, the boolean
    it returned, and the reasons of the [simulateSell] calls it made, in
    order. *)
Record ExitCheck := mkExitCheck {
  ledgerAfter : Ledger;
  sellTriggered : bool;
  sellCalls : list string
}.

(** [checkExitConditions]: [price] is what [getCurrentPrice] answered for
    the position's pool ([None] for [null]); [rnd] and [now] are as in
    [simulateSell], whose clock reading is taken equal to this one.  Of the
    [position] argument only the mint is read (and the pool id, by the
    caller), two fields that are never assigned: that the snapshot shares
    its objects with the ledger's array makes no difference here. *)
Definition checkExitConditions (cfg : Config) (s : Ledger)
    (position : Position) (price : option Q) (rnd : Q) (now : Z)
    : ExitCheck :=
  match price with
  | None => mkExitCheck s false []
  | Some currentPriceInSol =>
    if Qle_bool currentPriceInSol 0 then mkExitCheck s false []
    else
      let s1 :=
        updatePeakPrice s (tokenMintAddress position) currentPriceInSol in
      let allCurrentPositions := getActivePositions s1 in
      match find (mint_is (tokenMintAddress position)) allCurrentPositions with
      | None => mkExitCheck s1 false []
      | Some potentiallyUpdatedPosition =>
        let activePeakPrice := peakPrice potentiallyUpdatedPosition in
        let sell reason :=
          fst (simulateSell cfg s1 (Some potentiallyUpdatedPosition)
                            currentPriceInSol reason rnd now) in
        if profit_reached currentPriceInSol
                          (buyPrice potentiallyUpdatedPosition)
                          (PROFIT_TARGET_PERCENT cfg)
        then mkExitCheck (sell "profit_target"%string) true
                         ["profit_target"%string]
        else
          let profitTargetAchievedPreviously :=
            Qgtb activePeakPrice
                 (buyPrice potentiallyUpdatedPosition
                  * (1 + PROFIT_TARGET_PERCENT cfg)) in
          if profitTargetAchievedPreviously
             && Qltb currentPriceInSol
                     (activePeakPrice * (1 - TRAILING_STOP_PERCENT cfg))
          then mkExitCheck (sell "trailing_stop"%string) true
                           ["trailing_stop"%string]
          else
            if Qgeb (elapsedMinutes now
                       (buyTimestamp potentiallyUpdatedPosition))
                    (TRADE_TIME_LIMIT_MINUTES cfg)
            then mkExitCheck (sell "time_limit"%string) true
                             ["time_limit"%string]
            else mkExitCheck s1 false []
      end
  end.

(** [monitorTrades]: one sweep over the snapshot taken at its start.
    [getCurrentPrice] answers by pool id and [random] gives the draw used
    when the position of a given mint is sold. *)
Definition monitorTrades (cfg : Config) (s : Ledger)
    (getCurrentPrice : string -> option Q) (random : string -> Q) (now : Z)
    : Ledger :=
  let positions := getActivePositions s in
  fold_left
    (fun st position =>
       ledgerAfter
         (checkExitConditions cfg st position
            (getCurrentPrice (poolId position))
            (random (tokenMintAddress position)) now))
    positions s.

(** ** Runs of the ledger *)

Inductive Op :=
| OpBuy (tokenMint pool : string) (price rnd : Q) (now : Z)
| OpSell (position : option Position) (price : Q) (reason : string)
         (rnd : Q) (now : Z)
| OpUpdatePeak (tokenMint : string) (price : Q)
| OpMonitor (getCurrentPrice : string -> option Q) (random : string -> Q)
            (now : Z).

Definition step (cfg : Config) (s : Ledger) (op : Op) : Ledger :=
  match op with
  | OpBuy m pool price rnd now => fst (simulateBuy cfg s m pool price rnd now)
  | OpSell pos price reason rnd now =>
      fst (simulateSell cfg s pos price reason rnd now)
  | OpUpdatePeak m price => updatePeakPrice s m price
  | OpMonitor feed random now => monitorTrades cfg s feed random now
  end.

Definition run (cfg : Config) (s : Ledger) (ops : list Op) : Ledger :=
  fold_left (step cfg) ops s.


(** ** The qualifier ([tokenAnalyzer.js]) *)

Definition WRAPPED_SOL_MINT : string :=
  "So11111111111111111111111111111111111111112".

(** The fields of the detector's [poolData] that the qualifier reads.  The
    detector fills the mints from [mappedAccounts[5]] and
    [mappedAccounts[6]], which are [undefined] ([None]) when the instruction
    lists fewer accounts.  [timestamp] is [new Date(...).getTime()], [None]
    when the date does not parse (the source then computes with [NaN]). *)
Record PoolData := mkPoolData {
  ammId : string;
  transaction_signature : string;
  timestamp : option Z;
  tokenA_mint : option string;
  tokenB_mint : option string;
  lp_mint : option string
}.

(** What [getMintAccountInfo] resolves to: the qualifier reads only
    [freezeAuthority], [None] for [null]. *)
Record MintInfo := mkMintInfo {
  freezeAuthority : option string
}.

(** What [getPoolLiquidity] resolves to: an object that may carry [rawData]
    (a base64 string) and may carry [solAmount]. *)
Record LiquidityData := mkLiquidityData {
  rawData : option string;
  solAmount : option Q
}.

(** The [reason] of a verdict: one constructor per message of the source
    (the interpolated figures are left out). *)
Inductive Reason :=
| PoolTooOld
| NotDirectSolPair
| NewTokenIsSol
| MintInfoUnavailable
| FreezeAuthorityNotRevoked
| LiquidityUnavailable
| InsufficientLiquidity
| UnexpectedLiquidityFormat
| AllChecksPassed.

Record Verdict := mkVerdict {
  suitable : bool;
  reason : Reason;
  tokenMint : option string;
  verdictPoolId : option string
}.

Definition reject (r : Reason) : Verdict := mkVerdict false r None None.

(** JavaScript truthiness of a value that is a string or [undefined]. *)
Definition truthy_string (v : option string) : bool :=
  match v with
  | Some str => negb (String.eqb str "")
  | None => false
  end.

(** JavaScript truthiness of a value that is a number or [undefined]. *)
Definition truthy_number (v : option Q) : bool :=
  match v with
  | Some q => negb (Qeq_bool q 0)
  | None => false
  end.

(** [v === WRAPPED_SOL_MINT] *)
Definition is_wrapped_sol (v : option string) : bool :=
  match v with
  | Some str => String.eqb str WRAPPED_SOL_MINT
  | None => false
  end.

(** [poolAgeMinutes > MAX_POOL_AGE_MINUTES], false on an unparsed date. *)
Definition pool_too_old (cfg : Config) (now : Z) (ts : option Z) : bool :=
  match ts with
  | Some poolTimestamp =>
    let poolAgeMinutes :=
      inject_Z (now - poolTimestamp) / inject_Z (1000 * 60) in
    Qgtb poolAgeMinutes (MAX_POOL_AGE_MINUTES cfg)
  | None => false
  end.

(** Step b of the source: the pair [(solMint, newTokenMint)], both [null]
    ([None]) when neither mint is the wrapped-SOL mint. *)
Definition identifyMints (poolData : PoolData)
    : option string * option string :=
  if is_wrapped_sol (tokenA_mint poolData)
  then (tokenA_mint poolData, tokenB_mint poolData)
  else if is_wrapped_sol (tokenB_mint poolData)
  then (tokenB_mint poolData, tokenA_mint poolData)
  else (None, None).

(** Step d of the source, after the data has been fetched: [None] when the
    liquidity check lets the pool through, the rejection otherwise. *)
Definition liquidityCheck (cfg : Config) (liquidityData : LiquidityData)
    : option Reason :=
  if truthy_string (rawData liquidityData)
     && negb (truthy_number (solAmount liquidityData))
  then None
  else
    match solAmount liquidityData with
    | Some solReserveAmount =>
      if Qltb solReserveAmount (MIN_LIQUIDITY_SOL cfg)
      then Some InsufficientLiquidity
      else None
    | None => Some UnexpectedLiquidityFormat
    end.

(** [analyzeTokenAndPool]: [now] is [Date.now()]; [getMintAccountInfo] and
    [getPoolLiquidity] are the answers of the two lookups ([None] for
    [null]). *)
Definition analyzeTokenAndPool (cfg : Config) (poolData : PoolData)
    (now : Z)
    (getMintAccountInfo : string -> option MintInfo)
    (getPoolLiquidity : string -> option LiquidityData) : Verdict :=
  if pool_too_old cfg now (timestamp poolData) then reject PoolTooOld
  else
    let (solMint, newTokenMint) := identifyMints poolData in
    if negb (truthy_string solMint) || negb (truthy_string newTokenMint)
    then reject NotDirectSolPair
    else if is_wrapped_sol newTokenMint then reject NewTokenIsSol
    else
      match newTokenMint with
      | None => reject NotDirectSolPair
      | Some newToken =>
        match getMintAccountInfo newToken with
        | None => reject MintInfoUnavailable
        | Some mintInfo =>
          match freezeAuthority mintInfo with
          | Some _ => reject FreezeAuthorityNotRevoked
          | None =>
            match getPoolLiquidity (ammId poolData) with
            | None => reject LiquidityUnavailable
            | Some liquidityData =>
              match liquidityCheck cfg liquidityData with
              | Some r => reject r
              | None =>
                mkVerdict true AllChecksPassed (Some newToken)
                          (Some (ammId poolData))
              end
            end
          end
        end
      end.

(** ** Properties and worked inputs used in the statements *)

Definition within_limits (cfg : Config) (s : Ledger) : Prop :=
  0 <= virtualBudget s /\
  (List.length (activePositions s) <= MAX_CONCURRENT_POSITIONS cfg)%nat.

Definition peak_ok (p : Position) : Prop := buyPrice p <= peakPrice p.

Definition peaks_ok (s : Ledger) : Prop :=
  Forall peak_ok (activePositions s).

(** [raised price p p']: [p'] is [p], or [p] with its peak replaced by the
    strictly higher [price]. *)
Definition raised (price : Q) (p p' : Position) : Prop :=
  p' = p \/ (peakPrice p < price /\ p' = set_peak p price).

(** Every position of [l'] is a position of [l] whose peak has not gone
    down and whose other fields are the same. *)
Definition carried (l l' : list Position) : Prop :=
  forall p', In p' l' ->
    exists p, In p l /\ p' = set_peak p (peakPrice p') /\
              peakPrice p <= peakPrice p'.

(** The three conditions of [checkExitConditions], as propositions over the
    re-read position [pu] and the current price [c]. *)
Definition profit_rule (cfg : Config) (c : Q) (pu : Position) : Prop :=
  buyPrice pu == 0 \/
  PROFIT_TARGET_PERCENT cfg <= (c - buyPrice pu) / buyPrice pu.


Definition time_rule (cfg : Config) (now : Z) (pu : Position) : Prop :=
  TRADE_TIME_LIMIT_MINUTES cfg <= elapsedMinutes now (buyTimestamp pu).

(** The position of the worked example: one buy at price 1.0 on a fresh
    ledger with the default configuration. *)
Definition bought_at_one : Ledger :=
  fst (simulateBuy default_config (module_load default_config [])
         "MINT" "POOL" 1 (1 # 2) 0).


(** The pool is not older than [MAX_POOL_AGE_MINUTES] (an unparsed date
    passes, as in the source). *)
Definition age_ok (cfg : Config) (now : Z) (poolData : PoolData) : Prop :=
  forall ts, timestamp poolData = Some ts ->
    inject_Z (now - ts) / inject_Z (1000 * 60) <= MAX_POOL_AGE_MINUTES cfg.

(** Precisely one of the two reserve mints is the wrapped-SOL mint and the
    other one, [m], is present and not empty. *)
Definition pairs_with_native (poolData : PoolData) (m : string) : Prop :=
  m <> WRAPPED_SOL_MINT /\ m <> ""%string /\
  ((tokenA_mint poolData = Some WRAPPED_SOL_MINT /\
    tokenB_mint poolData = Some m) \/
   (tokenB_mint poolData = Some WRAPPED_SOL_MINT /\
    tokenA_mint poolData = Some m)).

Definition rejected_by_pairing (v : Verdict) : Prop :=
  suitable v = false /\
  (reason v = NotDirectSolPair \/ reason v = NewTokenIsSol).

(** The liquidity data lets the pool through without a reserve figure:
    [rawData] is there and [solAmount] is missing or zero. *)
Definition optimistic (d : LiquidityData) : Prop :=
  (exists raw, rawData d = Some raw /\ raw <> ""%string) /\
  (solAmount d = None \/ exists a, solAmount d = Some a /\ a == 0).

(** A pool one minute old that pairs wrapped SOL with a token whose freeze
    authority is revoked. *)
Definition fresh_sol_pool : PoolData :=
  mkPoolData "POOL" "SIG" (Some 0%Z) (Some WRAPPED_SOL_MINT)
             (Some "TOKEN"%string) (Some "LPMINT"%string).

(** What [getPoolLiquidity] resolves to for a pool account that exists:
    [{ rawData: <base64> }], with no [solAmount]. *)
Definition raw_only : LiquidityData :=
  mkLiquidityData (Some "AAAA"%string) None.

(** The same pool event with the second reserve mint missing. *)
Definition pool_missing_mint : PoolData :=
  mkPoolData "POOL" "SIG" (Some 0%Z) (Some WRAPPED_SOL_MINT) None
             (Some "LPMINT"%string).

(** A pool that pairs two tokens, neither of them wrapped SOL. *)
Definition pool_without_sol : PoolData :=
  mkPoolData "POOL" "SIG" (Some 0%Z) (Some "USDC"%string)
             (Some "TOKEN"%string) None.

(** The position that [bought_at_one] holds. *)
Definition first_position : Position :=
  mkPosition "MINT" "POOL" 1 0
    (calculateTokensForSol (1 # 2) 1 (25 # 10000) (buySlippage (1 # 2)))
    1 (1 # 2).

(** A position restored from the active-trades file whose stored peak, 1.30,
    is above the 15% threshold of its buy price 1.0. *)
Definition restored_position : Position :=
  mkPosition "OLD" "OLDPOOL" 1 0 (1 # 2) (13 # 10) (1 # 2).

Definition restarted : Ledger :=
  initializeTrading (module_load default_config [restored_position]).

(** ** Further properties of the ledger, used in the statements below *)

(** The mints of a list of positions, in order. *)
Definition mints (l : list Position) : list string :=
  map tokenMintAddress l.


(** A logged trade is consistent: proceeds not negative and
    [profitOrLoss = solProceeds - tradeSizeSol]. *)
Definition consistent_trade (t : CompletedTrade) : Prop :=
  0 <= solProceeds t /\
  profitOrLoss t = solProceeds t - tradeSizeSol (soldFields t).

(** The log of [s'] is the log of [s] followed by consistent trades. *)
Definition extends_log (s s' : Ledger) : Prop :=
  exists added,
    completedTrades s' = completedTrades s ++ added /\
    Forall consistent_trade added.



(** ** The collaborators ([solanaService.js]) and the pool handler
    ([index.js]) *)

(** What [connection.getAccountInfo(new PublicKey(account))] does: it
    throws (invalid key, RPC error), resolves to [null], or resolves to an
    account whose data reads [base64] under [toString('base64')]. *)
Inductive AccountLookup :=
| LookupThrows
| AccountMissing
| AccountFound (base64 : string).

(** [getPoolLiquidity]: the placeholder returns the raw data only; the
    object it builds has no [solAmount]. *)
Definition getPoolLiquidity (lookup : AccountLookup) : option LiquidityData :=
  match lookup with
  | LookupThrows => None
  | AccountMissing => None
  | AccountFound base64 => Some (mkLiquidityData (Some base64) None)
  end.

(** [getCurrentPrice]: both branches of the placeholder return [null].  The
    test of the source also asks for a [tokenAmount], a field that the
    objects of [getPoolLiquidity] do not carry either. *)
Definition getCurrentPrice (lookup : AccountLookup) : option Q :=
  match getPoolLiquidity lookup with
  | Some liquidity =>
    if truthy_number (solAmount liquidity) then None else None
  | None => None
  end.

(** [handleNewPool] of [index.js]: [getPrice] is what [getCurrentPrice]
    answers for a pool id; [now] is the clock of the analysis and [buyTime]
    the clock of the buy.  An accept verdict always carries its token and
    pool id, so that the last branch is never taken. *)
Definition handleNewPool (cfg : Config) (s : Ledger) (poolData : PoolData)
    (now : Z)
    (getMintAccountInfo : string -> option MintInfo)
    (getLiquidity : string -> option LiquidityData)
    (getPrice : string -> option Q) (rnd : Q) (buyTime : Z) : Ledger :=
  let analysisResult :=
    analyzeTokenAndPool cfg poolData now getMintAccountInfo getLiquidity in
  if suitable analysisResult then
    match tokenMint analysisResult, verdictPoolId analysisResult with
    | Some token, Some pool =>
      match getPrice pool with
      | Some currentPrice =>
        if Qgtb currentPrice 0
        then fst (simulateBuy cfg s token pool currentPrice rnd buyTime)
        else s
      | None => s
      end
    | _, _ => s
    end
  else s.

(** ** The pool detector ([solanaService.js], [subscribeToNewPools]) *)














(** ** The investment allocation ([investmentService.js]) *)






(** A position as [simulateBuy] opens it: positive price, positive amount,
    cost equal to the trade size. *)
Definition opened_by_ledger (cfg : Config) (p : Position) : Prop :=
  0 < buyPrice p /\ 0 < tokenAmount p /\
  tradeSizeSol p = TRADE_SIZE_SOL cfg.

(** ** Worked inputs for the further properties *)

(** The ledger after [first_position] has been sold at price 2. *)
Definition sold_at_two : Ledger :=
  fst (simulateSell default_config bought_at_one (Some first_position) 2
                    "profit_target" (1 # 2) 60000).


(** The default configuration with a minimum liquidity of 1000 SOL. *)
Definition demanding_config : Config :=
  mkConfig 5 (1 # 2) 10 (25 # 10000) (15 # 100) 60 (5 # 100) 1000 5.





(** ** The portfolio ([portfolioService.js]) *)

(** A position of the portfolio.  [averageBuyPriceUSD] is [None] when the
    source has stored a value that is not a finite number: the quotient of a
    division by zero, or anything computed from it. *)
Record Holding := mkHolding {
  tokenAddress : string;
  amountHeld : Q;
  averageBuyPriceUSD : option Q;
  initialInvestmentUSD : Q
}.

(** [models/trade.js]: the constructor's six arguments and
    [reasonForTrade], [null] at construction. *)
Record Trade := mkTrade {
  tokenId : string;
  tradeType : string;
  amountSOL : Q;
  priceUSD : Q;
  tradeTimestamp : Z;
  status : string;
  reasonForTrade : option string
}.

(** The module's [portfolio] object.  [positions] is a JavaScript [Map]:
    its entries in insertion order, one per key. *)
Record Portfolio := mkPortfolio {
  currentSOLBalance : Q;
  positions : list (string * Holding);
  simulatedTradeHistory : list Trade
}.

(** The portfolio when the module is loaded. *)
Definition initial_portfolio : Portfolio := mkPortfolio 100 [] [].

(** [map.get(key)] *)
Fixpoint map_get (key : string) (entries : list (string * Holding))
    : option Holding :=
  match entries with
  | [] => None
  | (k, v) :: rest => if String.eqb k key then Some v else map_get key rest
  end.

(** [map.set(key, value)]: an existing key keeps its place. *)
Fixpoint map_set (key : string) (value : Holding)
    (entries : list (string * Holding)) : list (string * Holding) :=
  match entries with
  | [] => [(key, value)]
  | (k, v) :: rest =>
    if String.eqb k key then (k, value) :: rest
    else (k, v) :: map_set key value rest
  end.

(** [map.delete(key)] *)
Fixpoint map_delete (key : string) (entries : list (string * Holding))
    : list (string * Holding) :=
  match entries with
  | [] => []
  | (k, v) :: rest =>
    if String.eqb k key then map_delete key rest
    else (k, v) :: map_delete key rest
  end.

Definition getSOLBalance (p : Portfolio) : Q := currentSOLBalance p.


Definition getPosition (p : Portfolio) (address : string) : option Holding :=
  map_get address (positions p).

(** The new average of a subsequent buy,
    [newTotalValue / position.amountHeld], where [newTotalValue] is
    [amountHeld * averageBuyPriceUSD + usdValueChange] and the divisor is
    the amount after the buy: not a finite number when the divisor is zero
    or the stored average is not finite. *)
Definition recalculatedAverage (held : Q) (average : option Q)
    (usdValueChange newHeld : Q) : option Q :=
  match average with
  | None => None
  | Some avg =>
    let currentTotalValue := held * avg in
    let newTotalValue := currentTotalValue + usdValueChange in
    if Qeq_bool newHeld 0 then None else Some (newTotalValue / newHeld)
  end.

(** [updatePosition]: the result pairs the new portfolio with the position
    returned ([None] for [null]).  The position object of the source is
    updated in place, which is [map_set] on its key here. *)
Definition updatePosition (p : Portfolio) (address : string)
    (amountChange price solInvestedChange usdValueChange : Q)
    : Portfolio * option Holding :=
  match map_get address (positions p) with
  | None =>
    if Qle_bool amountChange 0 then (p, None)
    else
      let position := mkHolding address amountChange (Some price)
                                usdValueChange in
      let p' := mkPortfolio (currentSOLBalance p)
                            (map_set address position (positions p))
                            (simulatedTradeHistory p) in
      (p', map_get address (positions p'))
  | Some position =>
    if Qgtb amountChange 0 then
      let newHeld := amountHeld position + amountChange in
      let updated :=
        mkHolding (tokenAddress position) newHeld
                  (recalculatedAverage (amountHeld position)
                     (averageBuyPriceUSD position) usdValueChange newHeld)
                  (initialInvestmentUSD position + usdValueChange) in
      let p' := mkPortfolio (currentSOLBalance p)
                            (map_set address updated (positions p))
                            (simulatedTradeHistory p) in
      (p', map_get address (positions p'))
    else
      let newHeld := amountHeld position + amountChange in
      let updated :=
        mkHolding (tokenAddress position) newHeld
                  (averageBuyPriceUSD position)
                  (initialInvestmentUSD position) in
      if Qle_bool newHeld (1 # 1000000)
      then (mkPortfolio (currentSOLBalance p)
                        (map_delete address (positions p))
                        (simulatedTradeHistory p),
            None)
      else
        let p' := mkPortfolio (currentSOLBalance p)
                              (map_set address updated (positions p))
                              (simulatedTradeHistory p) in
        (p', map_get address (positions p'))
  end.


Definition getTradeHistory (p : Portfolio) : list Trade :=
  simulatedTradeHistory p.






(** ** Facts about the boolean comparisons *)

Lemma Qle_bool_true (a b : Q) : Qle_bool a b = true <-> a <= b.
Proof. apply Qle_bool_iff. Qed.

Lemma Qle_bool_false (a b : Q) : Qle_bool a b = false <-> b < a.
Proof.
  split; intro H.
  - apply Qnot_le_lt. intro Hle. apply Qle_bool_iff in Hle. congruence.
  - destruct (Qle_bool a b) eqn:E; [|reflexivity].
    apply Qle_bool_iff in E. exfalso. apply (Qlt_not_le _ _ H E).
Qed.

Lemma Qltb_true (a b : Q) : Qltb a b = true <-> a < b.
Proof.
  unfold Qltb. rewrite negb_true_iff. apply Qle_bool_false.
Qed.

Lemma Qltb_false (a b : Q) : Qltb a b = false <-> b <= a.
Proof.
  unfold Qltb. rewrite negb_false_iff. apply Qle_bool_true.
Qed.

Lemma Qgtb_true (a b : Q) : Qgtb a b = true <-> b < a.
Proof. apply Qltb_true. Qed.

Lemma Qgeb_true (a b : Q) : Qgeb a b = true <-> b <= a.
Proof. apply Qle_bool_true. Qed.

Lemma Qgeb_false (a b : Q) : Qgeb a b = false <-> a < b.
Proof. apply Qle_bool_false. Qed.

(** ** The pricing model *)

Lemma tokens_unfold (s p f sl : Q) :
  0 < p -> calculateTokensForSol s p f sl = s * (1 - f) / p * (1 - sl).
Proof.
  intro Hp. unfold calculateTokensForSol.
  apply Qle_bool_false in Hp. rewrite Hp. reflexivity.
Qed.

Lemma sol_unfold (t p f sl : Q) :
  0 < p -> calculateSolForTokens t p f sl = t * p * (1 - f) * (1 - sl).
Proof.
  intro Hp. unfold calculateSolForTokens.
  apply Qle_bool_false in Hp. rewrite Hp. reflexivity.
Qed.

Lemma tokens_nonpositive_price (s p f sl : Q) :
  p <= 0 -> calculateTokensForSol s p f sl = 0.
Proof.
  intro Hp. unfold calculateTokensForSol.
  apply Qle_bool_true in Hp. rewrite Hp. reflexivity.
Qed.








(** ** Admission and buying *)

Lemma existsb_mint_false (m : string) (l : list Position) :
  existsb (mint_is m) l = false <->
  (forall p, In p l -> tokenMintAddress p <> m).
Proof.
  split.
  - intros H p Hin Heq.
    assert (existsb (mint_is m) l = true) as Ht.
    { apply existsb_exists. exists p. split; [exact Hin|].
      unfold mint_is. apply String.eqb_eq. exact Heq. }
    congruence.
  - intro H. destruct (existsb (mint_is m) l) eqn:E; [|reflexivity].
    apply existsb_exists in E. destruct E as [p [Hin Hp]].
    unfold mint_is in Hp. apply String.eqb_eq in Hp.
    exfalso. exact (H p Hin Hp).
Qed.

Lemma existsb_mint_true (m : string) (l : list Position) :
  existsb (mint_is m) l = true <->
  (exists p, In p l /\ tokenMintAddress p = m).
Proof.
  rewrite existsb_exists. split; intros [p [Hin Hp]]; exists p; split;
    try exact Hin; unfold mint_is in *; apply String.eqb_eq; exact Hp.
Qed.

Lemma canBuy_true_iff (cfg : Config) (s : Ledger) (m : string) :
  canBuy cfg s m = true <->
  TRADE_SIZE_SOL cfg <= virtualBudget s /\
  (List.length (activePositions s) < MAX_CONCURRENT_POSITIONS cfg)%nat /\
  (forall p, In p (activePositions s) -> tokenMintAddress p <> m).
Proof.
  unfold canBuy.
  destruct (Qltb (virtualBudget s) (TRADE_SIZE_SOL cfg)) eqn:Eb.
  { apply Qltb_true in Eb. split; [discriminate|].
    intros [H _]. exfalso. exact (Qlt_not_le _ _ Eb H). }
  apply Qltb_false in Eb.
  destruct (MAX_CONCURRENT_POSITIONS cfg <=? List.length (activePositions s))%nat
    eqn:En.
  { apply Nat.leb_le in En. split; [discriminate|]. intros [_ [H _]]. lia. }
  apply Nat.leb_gt in En.
  destruct (existsb (mint_is m) (activePositions s)) eqn:Ee.
  { split; [discriminate|]. intros [_ [_ H]].
    pose proof (proj2 (existsb_mint_false m _) H). congruence. }
  pose proof (proj1 (existsb_mint_false m _) Ee) as Hm.
  split; [|reflexivity].
  intros _. split; [exact Eb|]. split; [exact En|exact Hm].
Qed.

Lemma canBuy_false_iff (cfg : Config) (s : Ledger) (m : string) :
  canBuy cfg s m = false <->
  virtualBudget s < TRADE_SIZE_SOL cfg \/
  (MAX_CONCURRENT_POSITIONS cfg <= List.length (activePositions s))%nat \/
  (exists p, In p (activePositions s) /\ tokenMintAddress p = m).
Proof.
  unfold canBuy.
  destruct (Qltb (virtualBudget s) (TRADE_SIZE_SOL cfg)) eqn:Eb.
  { apply Qltb_true in Eb. split; [intros _; left; exact Eb|reflexivity]. }
  apply Qltb_false in Eb.
  destruct (MAX_CONCURRENT_POSITIONS cfg <=? List.length (activePositions s))%nat
    eqn:En.
  { apply Nat.leb_le in En.
    split; [intros _; right; left; exact En|reflexivity]. }
  apply Nat.leb_gt in En.
  destruct (existsb (mint_is m) (activePositions s)) eqn:Ee.
  { apply existsb_mint_true in Ee.
    split; [intros _; right; right; exact Ee|reflexivity]. }
  split; [discriminate|].
  intros [H | [H | H]].
  - exfalso. exact (Qlt_not_le _ _ H Eb).
  - lia.
  - apply existsb_mint_true in H. congruence.
Qed.

Lemma simulateBuy_rejects (cfg : Config) (s : Ledger) (m pool : string)
    (price rnd : Q) (now : Z) :
  canBuy cfg s m = false ->
  simulateBuy cfg s m pool price rnd now = (s, None).
Proof.
  intro H. unfold simulateBuy. rewrite H. reflexivity.
Qed.

Lemma simulateBuy_success (cfg : Config) (s s' : Ledger) (m pool : string)
    (price rnd : Q) (now : Z) (pos : Position) :
  simulateBuy cfg s m pool price rnd now = (s', Some pos) ->
  canBuy cfg s m = true /\
  pos = mkPosition m pool price now
          (calculateTokensForSol (TRADE_SIZE_SOL cfg) price
             (RAYDIUM_FEE_PERCENT cfg) (buySlippage rnd))
          price (TRADE_SIZE_SOL cfg) /\
  0 < tokenAmount pos /\
  s' = mkLedger (virtualBudget s - TRADE_SIZE_SOL cfg)
                (activePositions s ++ [pos]) (activePositions s ++ [pos])
                (completedTrades s).
Proof.
  unfold simulateBuy.
  destruct (canBuy cfg s m) eqn:Ec; simpl; [|discriminate].
  destruct (Qeq_bool _ 0 || Qle_bool _ 0) eqn:Ea; [discriminate|].
  intro H. injection H as Hs Hp. subst pos. subst s'.
  apply orb_false_iff in Ea. destruct Ea as [_ Ea].
  apply Qle_bool_false in Ea.
  repeat split. exact Ea.
Qed.

(** C3: [simulateBuy] returns [null] whenever [canBuy] is false, that is
    whenever the budget is below the trade size, or the position count has
    reached the maximum, or a position of that mint is open; a successful
    buy implies that the three admission conditions held, takes exactly the
    trade size off the budget, and appends a position of that mint whose
    peak price is the reference price. *)
Theorem simulateBuy_admission (cfg : Config) (s : Ledger) (m pool : string)
    (price rnd : Q) (now : Z) :
  (canBuy cfg s m = false <->
     virtualBudget s < TRADE_SIZE_SOL cfg \/
     (MAX_CONCURRENT_POSITIONS cfg <= List.length (activePositions s))%nat \/
     (exists p, In p (activePositions s) /\ tokenMintAddress p = m)) /\
  (canBuy cfg s m = false ->
     simulateBuy cfg s m pool price rnd now = (s, None)) /\
  (forall s' pos,
     simulateBuy cfg s m pool price rnd now = (s', Some pos) ->
     canBuy cfg s m = true /\
     TRADE_SIZE_SOL cfg <= virtualBudget s /\
     (List.length (activePositions s) < MAX_CONCURRENT_POSITIONS cfg)%nat /\
     (forall p, In p (activePositions s) -> tokenMintAddress p <> m) /\
     virtualBudget s' = virtualBudget s - TRADE_SIZE_SOL cfg /\
     activePositions s' = activePositions s ++ [pos] /\
     tokenMintAddress pos = m /\
     poolId pos = pool /\
     buyPrice pos = price /\
     peakPrice pos = price /\
     tradeSizeSol pos = TRADE_SIZE_SOL cfg).
Proof.
  split; [apply canBuy_false_iff|]. split; [apply simulateBuy_rejects|].
  intros s' pos H.
  destruct (simulateBuy_success _ _ _ _ _ _ _ _ _ H) as [Hc [Hp [_ Hs]]].
  pose proof (proj1 (canBuy_true_iff cfg s m) Hc) as [Hb [Hn Hm]].
  subst s'. rewrite Hp. simpl. repeat split; assumption.
Qed.

(** ** Selling *)

Lemma find_mint_none (m : string) (l : list Position) :
  find (mint_is m) l = None <->
  (forall q, In q l -> tokenMintAddress q <> m).
Proof.
  split.
  - intros H q Hin Heq.
    pose proof (find_none _ _ H q Hin) as Hq.
    unfold mint_is in Hq. apply String.eqb_neq in Hq. exact (Hq Heq).
  - intro H. destruct (find (mint_is m) l) as [q|] eqn:E; [|reflexivity].
    apply find_some in E. destruct E as [Hin Hq].
    unfold mint_is in Hq. apply String.eqb_eq in Hq.
    exfalso. exact (H q Hin Hq).
Qed.

Lemma find_mint_some (m : string) (l : list Position) (q : Position) :
  find (mint_is m) l = Some q -> In q l /\ tokenMintAddress q = m.
Proof.
  intro H. apply find_some in H. destruct H as [Hin Hq].
  split; [exact Hin|]. unfold mint_is in Hq. apply String.eqb_eq. exact Hq.
Qed.

Lemma filter_other_mints (m : string) (l : list Position) (q : Position) :
  In q (filter (fun p => negb (mint_is m p)) l) <->
  In q l /\ tokenMintAddress q <> m.
Proof.
  rewrite filter_In. unfold mint_is. rewrite negb_true_iff.
  rewrite String.eqb_neq. reflexivity.
Qed.

(** The three outcomes of [simulateSell], by the guards of the source. *)
Lemma simulateSell_cases (cfg : Config) (s : Ledger)
    (position : option Position) (price : Q) (why : string) (rnd : Q)
    (now : Z) :
  (simulateSell cfg s position price why rnd now = (s, None) /\
   (position = None \/
    exists p, position = Some p /\
      ((forall q, In q (activePositions s) ->
                  tokenMintAddress q <> tokenMintAddress p) \/
       calculateSolForTokens (tokenAmount p) price (RAYDIUM_FEE_PERCENT cfg)
                             (sellSlippage rnd) < 0)))
  \/
  (exists p proceeds,
     position = Some p /\
     proceeds = calculateSolForTokens (tokenAmount p) price
                  (RAYDIUM_FEE_PERCENT cfg) (sellSlippage rnd) /\
     0 <= proceeds /\
     (exists q, In q (activePositions s) /\
                tokenMintAddress q = tokenMintAddress p) /\
     simulateSell cfg s position price why rnd now =
       (mkLedger (virtualBudget s + proceeds)
          (filter (fun q => negb (mint_is (tokenMintAddress p) q))
                  (activePositions s))
          (filter (fun q => negb (mint_is (tokenMintAddress p) q))
                  (activePositions s))
          (completedTrades s ++
             [mkCompletedTrade p price proceeds why now
                               (proceeds - tradeSizeSol p)]),
        Some (proceeds, p))).
Proof.
  unfold simulateSell. destruct position as [p|].
  2:{ left. split; [reflexivity|]. left. reflexivity. }
  destruct (find (mint_is (tokenMintAddress p)) (activePositions s))
    as [q|] eqn:Ef.
  2:{ left. split; [reflexivity|]. right. exists p. split; [reflexivity|].
      left. apply find_mint_none. exact Ef. }
  destruct (Qltb _ 0) eqn:Ep.
  - left. split; [reflexivity|]. right. exists p. split; [reflexivity|].
    right. apply Qltb_true. exact Ep.
  - right. exists p. eexists. split; [reflexivity|]. split; [reflexivity|].
    split; [apply Qltb_false; exact Ep|]. split; [|reflexivity].
    exists q. apply find_mint_some. exact Ef.
Qed.

(** C7: [simulateSell] returns [null] when no open position has the given
    position's mint and when the computed proceeds are negative; a call
    that returns [null] leaves the whole ledger as it was; a call on a
    position with a matching open position and non-negative proceeds (zero
    included) succeeds; and a success adds exactly the proceeds to the
    budget, removes the positions of that mint, and logs one completed trade
    whose profit or loss is the proceeds minus the position's SOL cost. *)
Theorem simulateSell_contract (cfg : Config) (s : Ledger)
    (position : option Position) (price : Q) (why : string) (rnd : Q)
    (now : Z) :
  let proceeds_of p :=
    calculateSolForTokens (tokenAmount p) price (RAYDIUM_FEE_PERCENT cfg)
                          (sellSlippage rnd) in
  let result := simulateSell cfg s position price why rnd now in
  (forall p, position = Some p ->
     (forall q, In q (activePositions s) ->
                tokenMintAddress q <> tokenMintAddress p) ->
     snd result = None) /\
  (forall p, position = Some p -> proceeds_of p < 0 -> snd result = None) /\
  (snd result = None -> fst result = s) /\
  (forall p, position = Some p ->
     (exists q, In q (activePositions s) /\
                tokenMintAddress q = tokenMintAddress p) ->
     0 <= proceeds_of p ->
     snd result = Some (proceeds_of p, p)) /\
  (forall proceeds sold, snd result = Some (proceeds, sold) ->
     position = Some sold /\
     proceeds = proceeds_of sold /\
     0 <= proceeds /\
     virtualBudget (fst result) = virtualBudget s + proceeds /\
     (forall q, In q (activePositions (fst result)) <->
                In q (activePositions s) /\
                tokenMintAddress q <> tokenMintAddress sold) /\
     activeTradesFile (fst result) = activePositions (fst result) /\
     completedTrades (fst result) =
       completedTrades s ++
         [mkCompletedTrade sold price proceeds why now
                           (proceeds - tradeSizeSol sold)]).
Proof.
  intros proceeds_of result.
  destruct (simulateSell_cases cfg s position price why rnd now)
    as [[Hr Hwhy] | [p [proceeds [Hpos [Hpr [Hnn [Hex Hr]]]]]]];
    subst result; rewrite Hr; simpl.
  - split; [reflexivity|]. split; [reflexivity|]. split; [reflexivity|].
    split; [|discriminate].
    intros p Hp [q [Hin Hq]] Hnn. exfalso.
    destruct Hwhy as [Hnone | [p' [Hp' [Hno | Hneg]]]].
    + congruence.
    + assert (p' = p) as -> by congruence. exact (Hno q Hin Hq).
    + assert (p' = p) as -> by congruence.
      exact (Qlt_not_le _ _ Hneg Hnn).
  - subst position. split; [|split; [|split; [|split]]].
    + intros p' Hp' Hno. injection Hp' as <-.
      destruct Hex as [q [Hin Hq]]. exfalso. exact (Hno q Hin Hq).
    + intros p' Hp' Hneg. injection Hp' as <-.
      exfalso. subst proceeds. exact (Qlt_not_le _ _ Hneg Hnn).
    + discriminate.
    + intros p' Hp' _ _. injection Hp' as <-. subst proceeds. reflexivity.
    + intros proceeds' sold H. injection H as <- <-.
      split; [reflexivity|]. split; [exact Hpr|]. split; [exact Hnn|].
      split; [reflexivity|]. split; [|split; reflexivity].
      intro q. apply filter_other_mints.
Qed.

(** ** Restart *)

(** C10: when the configured budget is not negative, [initializeTrading]
    on a freshly loaded module leaves the virtual budget at
    [VIRTUAL_BUDGET_SOL] whatever the persisted list holds:
    [getVirtualBudget] returns that value, the loaded positions become the
    open positions, their committed SOL is not taken off, and the budget
    test of [canBuy] is the one of a first start. *)
Theorem restart_keeps_full_budget (cfg : Config) (file : list Position) :
  0 <= VIRTUAL_BUDGET_SOL cfg ->
  let s := initializeTrading (module_load cfg file) in
  virtualBudget s = VIRTUAL_BUDGET_SOL cfg /\
  getVirtualBudget s = VIRTUAL_BUDGET_SOL cfg /\
  getActivePositions s = file /\
  getVirtualBudget s =
    getVirtualBudget (initializeTrading (module_load cfg [])) /\
  (forall m, canBuy cfg s m = true <->
     TRADE_SIZE_SOL cfg <= VIRTUAL_BUDGET_SOL cfg /\
     (List.length file < MAX_CONCURRENT_POSITIONS cfg)%nat /\
     (forall p, In p file -> tokenMintAddress p <> m)).
Proof.
  intros Hb s.
  assert (Qltb (VIRTUAL_BUDGET_SOL cfg) 0 = false) as Hclamp
    by (apply Qltb_false; exact Hb).
  assert (s = mkLedger (VIRTUAL_BUDGET_SOL cfg) file file []) as Hs.
  { subst s. unfold initializeTrading, module_load, loadActiveTrades. simpl.
    destruct file as [|p rest]; simpl; rewrite Hclamp; reflexivity. }
  assert (initializeTrading (module_load cfg []) =
          mkLedger (VIRTUAL_BUDGET_SOL cfg) [] [] []) as Hfresh.
  { unfold initializeTrading, module_load, loadActiveTrades. simpl.
    rewrite Hclamp. reflexivity. }
  rewrite Hfresh. rewrite Hs. simpl.
  do 4 (split; [reflexivity|]).
  intro m. rewrite canBuy_true_iff. simpl. reflexivity.
Qed.

(** ** Invariants of the ledger *)

(** A property of the ledger that selling and raising a peak preserve is
    preserved by an exit check and by a whole sweep; if buying preserves it
    too, every run does. *)
Section Preservation.
Variable cfg : Config.
Variable P : Ledger -> Prop.

Hypothesis P_buy : forall s m pool price rnd now,
  P s -> P (fst (simulateBuy cfg s m pool price rnd now)).
Hypothesis P_sell : forall s pos price why rnd now,
  P s -> P (fst (simulateSell cfg s pos price why rnd now)).
Hypothesis P_peak : forall s m price,
  P s -> P (updatePeakPrice s m price).

Lemma preserved_by_check (s : Ledger) (position : Position)
    (price : option Q) (rnd : Q) (now : Z) :
  P s -> P (ledgerAfter (checkExitConditions cfg s position price rnd now)).
Proof.
  intro Hs. unfold checkExitConditions.
  destruct price as [c|]; [|exact Hs].
  destruct (Qle_bool c 0); [exact Hs|].
  pose proof (P_peak s (tokenMintAddress position) c Hs) as H1.
  destruct (find _ (getActivePositions _)) as [pu|]; [|exact H1].
  destruct (profit_reached _ _ _); [apply P_sell; exact H1|].
  destruct (_ && _); [apply P_sell; exact H1|].
  destruct (Qgeb _ _); [apply P_sell; exact H1|exact H1].
Qed.

Lemma preserved_by_sweep (feed : string -> option Q) (random : string -> Q)
    (now : Z) (snapshot : list Position) (s : Ledger) :
  P s ->
  P (fold_left
       (fun st position =>
          ledgerAfter
            (checkExitConditions cfg st position (feed (poolId position))
               (random (tokenMintAddress position)) now))
       snapshot s).
Proof.
  revert s. induction snapshot as [|p rest IH]; intros s Hs; simpl.
  - exact Hs.
  - apply IH. apply preserved_by_check. exact Hs.
Qed.

Lemma preserved_by_monitor (s : Ledger) (feed : string -> option Q)
    (random : string -> Q) (now : Z) :
  P s -> P (monitorTrades cfg s feed random now).
Proof. intro Hs. unfold monitorTrades. apply preserved_by_sweep. exact Hs. Qed.

Lemma preserved_by_step (s : Ledger) (op : Op) :
  P s -> P (step cfg s op).
Proof.
  intro Hs. destruct op; simpl.
  - apply P_buy; exact Hs.
  - apply P_sell; exact Hs.
  - apply P_peak; exact Hs.
  - apply preserved_by_monitor; exact Hs.
Qed.

Lemma preserved_by_run (ops : list Op) (s : Ledger) :
  P s -> P (run cfg s ops).
Proof.
  revert s. unfold run. induction ops as [|op rest IH]; intros s Hs; simpl.
  - exact Hs.
  - apply IH. apply preserved_by_step. exact Hs.
Qed.
End Preservation.

(** *** Budget and position count *)

Lemma buy_outcome (cfg : Config) (s : Ledger) (m pool : string)
    (price rnd : Q) (now : Z) :
  fst (simulateBuy cfg s m pool price rnd now) = s \/
  exists pos,
    simulateBuy cfg s m pool price rnd now =
      (fst (simulateBuy cfg s m pool price rnd now), Some pos).
Proof.
  destruct (simulateBuy cfg s m pool price rnd now) as [s' [pos|]] eqn:E.
  - right. exists pos. reflexivity.
  - left. unfold simulateBuy in E.
    destruct (negb _); [injection E as <-; reflexivity|].
    destruct (_ || _); [injection E as <-; reflexivity|discriminate].
Qed.

Lemma sell_outcome (cfg : Config) (s : Ledger) (position : option Position)
    (price : Q) (why : string) (rnd : Q) (now : Z) :
  fst (simulateSell cfg s position price why rnd now) = s \/
  exists p proceeds,
    position = Some p /\ 0 <= proceeds /\
    fst (simulateSell cfg s position price why rnd now) =
      mkLedger (virtualBudget s + proceeds)
        (filter (fun q => negb (mint_is (tokenMintAddress p) q))
                (activePositions s))
        (filter (fun q => negb (mint_is (tokenMintAddress p) q))
                (activePositions s))
        (completedTrades s ++
           [mkCompletedTrade p price proceeds why now
                             (proceeds - tradeSizeSol p)]).
Proof.
  destruct (simulateSell_cases cfg s position price why rnd now)
    as [[Hr _] | [p [proceeds [Hpos [_ [Hnn [_ Hr]]]]]]]; rewrite Hr.
  - left. reflexivity.
  - right. exists p, proceeds. repeat split; assumption.
Qed.

Lemma assign_peak_length (m : string) (price : Q) (l : list Position) :
  List.length (assign_peak m price l) = List.length l.
Proof.
  induction l as [|p rest IH]; simpl; [reflexivity|].
  destruct (mint_is m p); simpl; [reflexivity|]. rewrite IH. reflexivity.
Qed.

Lemma peak_outcome (s : Ledger) (m : string) (price : Q) :
  updatePeakPrice s m price = s \/
  exists position,
    find (mint_is m) (activePositions s) = Some position /\
    peakPrice position < price /\
    updatePeakPrice s m price =
      mkLedger (virtualBudget s)
               (assign_peak m price (activePositions s))
               (assign_peak m price (activePositions s))
               (completedTrades s).
Proof.
  unfold updatePeakPrice.
  destruct (find (mint_is m) (activePositions s)) as [position|];
    [|left; reflexivity].
  destruct (Qgtb price (peakPrice position)) eqn:E; [|left; reflexivity].
  right. exists position. split; [reflexivity|].
  split; [apply Qgtb_true; exact E|reflexivity].
Qed.

Lemma within_limits_buy (cfg : Config) (s : Ledger) (m pool : string)
    (price rnd : Q) (now : Z) :
  within_limits cfg s ->
  within_limits cfg (fst (simulateBuy cfg s m pool price rnd now)).
Proof.
  intros [Hb Hn].
  destruct (buy_outcome cfg s m pool price rnd now) as [E | [pos E]].
  - rewrite E. split; assumption.
  - destruct (simulateBuy_success _ _ _ _ _ _ _ _ _ E) as [Hc [_ [_ Hs]]].
    apply canBuy_true_iff in Hc. destruct Hc as [Hge [Hlt _]].
    rewrite Hs. unfold within_limits. simpl. split.
    + lra.
    + rewrite length_app. simpl. lia.
Qed.

Lemma within_limits_sell (cfg : Config) (s : Ledger)
    (position : option Position) (price : Q) (why : string) (rnd : Q)
    (now : Z) :
  within_limits cfg s ->
  within_limits cfg (fst (simulateSell cfg s position price why rnd now)).
Proof.
  intros [Hb Hn].
  destruct (sell_outcome cfg s position price why rnd now)
    as [E | [p [proceeds [_ [Hnn E]]]]]; rewrite E.
  - split; assumption.
  - unfold within_limits. simpl. split.
    + lra.
    + pose proof (filter_length_le
                    (fun q => negb (mint_is (tokenMintAddress p) q))
                    (activePositions s)). lia.
Qed.

Lemma within_limits_peak (cfg : Config) (s : Ledger) (m : string)
    (price : Q) :
  within_limits cfg s -> within_limits cfg (updatePeakPrice s m price).
Proof.
  intros [Hb Hn].
  destruct (peak_outcome s m price) as [E | [position [_ [_ E]]]]; rewrite E.
  - split; assumption.
  - unfold within_limits. simpl. rewrite assign_peak_length.
    split; assumption.
Qed.

(** C4: when the configured budget is not negative, after any finite
    sequence of buys and sells (and of peak updates and exit sweeps) from
    the state of a freshly loaded module, the budget is at least 0 and the
    number of open positions is at most [MAX_CONCURRENT_POSITIONS]. *)
Theorem budget_and_count_bounded (cfg : Config) (file : list Position)
    (ops : list Op) :
  0 <= VIRTUAL_BUDGET_SOL cfg ->
  0 <= virtualBudget (run cfg (module_load cfg file) ops) /\
  (List.length (activePositions (run cfg (module_load cfg file) ops))
   <= MAX_CONCURRENT_POSITIONS cfg)%nat.
Proof.
  intro Hb.
  apply (preserved_by_run cfg (within_limits cfg)).
  - intros. apply within_limits_buy. assumption.
  - intros. apply within_limits_sell. assumption.
  - intros. apply within_limits_peak. assumption.
  - split; simpl; [exact Hb|lia].
Qed.

(** *** Peak prices *)

Lemma set_peak_same (p : Position) : set_peak p (peakPrice p) = p.
Proof. destruct p; reflexivity. Qed.

Lemma carried_refl (l : list Position) : carried l l.
Proof.
  intros p Hin. exists p. split; [exact Hin|].
  split; [symmetry; apply set_peak_same|apply Qle_refl].
Qed.

Lemma carried_trans (l1 l2 l3 : list Position) :
  carried l1 l2 -> carried l2 l3 -> carried l1 l3.
Proof.
  intros H12 H23 p3 Hin3.
  destruct (H23 p3 Hin3) as [p2 [Hin2 [E2 Hle2]]].
  destruct (H12 p2 Hin2) as [p1 [Hin1 [E1 Hle1]]].
  exists p1. split; [exact Hin1|]. split.
  - rewrite E2. rewrite E1. reflexivity.
  - apply (Qle_trans _ _ _ Hle1 Hle2).
Qed.

Lemma raised_all_refl (price : Q) (l : list Position) :
  Forall2 (raised price) l l.
Proof. induction l; constructor; [left; reflexivity|assumption]. Qed.

Lemma assign_peak_raised (m : string) (price : Q) (l : list Position)
    (position : Position) :
  find (mint_is m) l = Some position ->
  peakPrice position < price ->
  Forall2 (raised price) l (assign_peak m price l).
Proof.
  induction l as [|p rest IH]; simpl; [discriminate|].
  destruct (mint_is m p).
  - intros E Hlt. injection E as ->. constructor.
    + right. split; [exact Hlt|reflexivity].
    + apply raised_all_refl.
  - intros E Hlt. constructor; [left; reflexivity|]. apply IH; assumption.
Qed.

Lemma updatePeakPrice_raised (s : Ledger) (m : string) (price : Q) :
  Forall2 (raised price) (activePositions s)
          (activePositions (updatePeakPrice s m price)).
Proof.
  destruct (peak_outcome s m price) as [E | [position [Hf [Hlt E]]]];
    rewrite E; simpl.
  - apply raised_all_refl.
  - apply (assign_peak_raised m price _ position); assumption.
Qed.

Lemma raised_carried (price : Q) (l l' : list Position) :
  Forall2 (raised price) l l' -> carried l l'.
Proof.
  induction 1 as [|p p' l l' Hr _ IH]; intros q Hin; [destruct Hin|].
  destruct Hin as [<- | Hin].
  - exists p. split; [left; reflexivity|].
    destruct Hr as [-> | [Hlt ->]].
    + split; [symmetry; apply set_peak_same|apply Qle_refl].
    + split; [reflexivity|]. simpl. apply Qlt_le_weak. exact Hlt.
  - destruct (IH q Hin) as [p0 [Hin0 H0]]. exists p0.
    split; [right; exact Hin0|exact H0].
Qed.

Lemma raised_peak_ok (price : Q) (p p' : Position) :
  raised price p p' -> peak_ok p -> peak_ok p'.
Proof.
  unfold peak_ok. intros [-> | [Hlt ->]] Hok; [exact Hok|]. simpl.
  apply Qlt_le_weak. apply (Qle_lt_trans _ _ _ Hok Hlt).
Qed.

Lemma carried_peaks_ok (l l' : list Position) :
  carried l l' -> Forall peak_ok l -> Forall peak_ok l'.
Proof.
  intros Hc Hl. apply Forall_forall. intros p' Hin.
  destruct (Hc p' Hin) as [p [Hinp [E Hle]]].
  rewrite Forall_forall in Hl. pose proof (Hl p Hinp) as Hp.
  unfold peak_ok in *. rewrite E. simpl.
  apply (Qle_trans _ _ _ Hp Hle).
Qed.

Lemma sell_carried (cfg : Config) (s : Ledger) (position : option Position)
    (price : Q) (why : string) (rnd : Q) (now : Z) :
  carried (activePositions s)
    (activePositions (fst (simulateSell cfg s position price why rnd now))).
Proof.
  destruct (sell_outcome cfg s position price why rnd now)
    as [E | [p [proceeds [_ [_ E]]]]]; rewrite E; simpl.
  - apply carried_refl.
  - intros q Hin. apply filter_In in Hin. destruct Hin as [Hin _].
    apply (carried_refl _ q Hin).
Qed.

Lemma peak_carried (s : Ledger) (m : string) (price : Q) :
  carried (activePositions s) (activePositions (updatePeakPrice s m price)).
Proof. apply (raised_carried price). apply updatePeakPrice_raised. Qed.

Lemma monitor_carried (cfg : Config) (s : Ledger)
    (feed : string -> option Q) (random : string -> Q) (now : Z) :
  carried (activePositions s)
          (activePositions (monitorTrades cfg s feed random now)).
Proof.
  apply (preserved_by_monitor cfg
           (fun st => carried (activePositions s) (activePositions st))).
  - intros st pos price why rnd now' H.
    apply (carried_trans _ _ _ H). apply sell_carried.
  - intros st m price H.
    apply (carried_trans _ _ _ H). apply peak_carried.
  - apply carried_refl.
Qed.

Lemma peaks_ok_buy (cfg : Config) (s : Ledger) (m pool : string)
    (price rnd : Q) (now : Z) :
  peaks_ok s -> peaks_ok (fst (simulateBuy cfg s m pool price rnd now)).
Proof.
  intro Hs.
  destruct (buy_outcome cfg s m pool price rnd now) as [E | [pos E]].
  - rewrite E. exact Hs.
  - destruct (simulateBuy_success _ _ _ _ _ _ _ _ _ E) as [_ [Hp [_ Hs']]].
    rewrite Hs'. unfold peaks_ok. simpl. apply Forall_app. split; [exact Hs|].
    constructor; [|constructor]. rewrite Hp. unfold peak_ok. simpl.
    apply Qle_refl.
Qed.

Lemma peaks_ok_run (cfg : Config) (ops : list Op) (s : Ledger) :
  peaks_ok s -> peaks_ok (run cfg s ops).
Proof.
  apply (preserved_by_run cfg peaks_ok).
  - intros. apply peaks_ok_buy. assumption.
  - intros st pos price why rnd now H.
    apply (carried_peaks_ok (activePositions st)); [apply sell_carried|exact H].
  - intros st m price H.
    apply (carried_peaks_ok (activePositions st)); [apply peak_carried|exact H].
Qed.

Lemma peaks_ok_initialize (cfg : Config) (file : list Position) :
  Forall peak_ok file -> peaks_ok (initializeTrading (module_load cfg file)).
Proof.
  intro Hf. unfold initializeTrading, module_load, loadActiveTrades, peaks_ok.
  simpl. destruct file as [|p rest]; simpl;
    destruct (Qltb (VIRTUAL_BUDGET_SOL cfg) 0); simpl;
    first [exact Hf | constructor].
Qed.

(** C6: in every state a run reaches from a started module (whose
    active-trades file, written by earlier runs, holds positions with peak
    at least the buy price; the empty file of a first start included), every
    open position has a peak price at least its buy price.  A buy opens its
    position with the peak equal to the buy price; [updatePeakPrice] leaves
    each position as it is or replaces its peak by a strictly higher price;
    and whatever the operation, a position that is open afterwards is either
    the one just bought or a position that was open before, with the same
    fields and a peak that is not lower. *)
Theorem peak_never_below_buy (cfg : Config) (file : list Position)
    (ops : list Op) :
  Forall (fun p => buyPrice p <= peakPrice p) file ->
  (forall p,
     In p (activePositions
             (run cfg (initializeTrading (module_load cfg file)) ops)) ->
     buyPrice p <= peakPrice p) /\
  (forall s m pool price rnd now s' pos,
     simulateBuy cfg s m pool price rnd now = (s', Some pos) ->
     activePositions s' = activePositions s ++ [pos] /\
     buyPrice pos = price /\ peakPrice pos = price) /\
  (forall s m price,
     Forall2 (fun p p' => p' = p \/
                          (peakPrice p < price /\ p' = set_peak p price))
             (activePositions s)
             (activePositions (updatePeakPrice s m price))) /\
  (forall s op p',
     In p' (activePositions (step cfg s op)) ->
     (exists p, In p (activePositions s) /\
                p' = set_peak p (peakPrice p') /\
                peakPrice p <= peakPrice p') \/
     (exists m pool price rnd now,
        op = OpBuy m pool price rnd now /\
        snd (simulateBuy cfg s m pool price rnd now) = Some p' /\
        buyPrice p' = price /\ peakPrice p' = price)).
Proof.
  intro Hfile. split; [|split; [|split]].
  - intros p Hin.
    pose proof (peaks_ok_run cfg ops _ (peaks_ok_initialize cfg file Hfile))
      as Hok.
    unfold peaks_ok in Hok. rewrite Forall_forall in Hok. exact (Hok p Hin).
  - intros s m pool price rnd now s' pos E.
    destruct (simulateBuy_success _ _ _ _ _ _ _ _ _ E) as [_ [Hp [_ Hs']]].
    rewrite Hs'. rewrite Hp. simpl. repeat split; reflexivity.
  - intros s m price. apply updatePeakPrice_raised.
  - intros s op p' Hin. destruct op as [m pool price rnd now|position price why rnd now
                                  |m price|feed random now]; simpl in Hin.
    + destruct (buy_outcome cfg s m pool price rnd now) as [E | [pos E]].
      * rewrite E in Hin. left. apply (carried_refl _ p' Hin).
      * destruct (simulateBuy_success _ _ _ _ _ _ _ _ _ E)
          as [_ [Hp [_ Hs']]].
        rewrite Hs' in Hin. simpl in Hin. apply in_app_or in Hin.
        destruct Hin as [Hin | [<- | []]].
        -- left. apply (carried_refl _ p' Hin).
        -- right. exists m, pool, price, rnd, now.
           split; [reflexivity|]. rewrite E. simpl.
           split; [reflexivity|]. rewrite Hp. simpl. split; reflexivity.
    + left. apply (sell_carried cfg s position price why rnd now p' Hin).
    + left. apply (peak_carried s m price p' Hin).
    + left.
      apply (monitor_carried cfg s feed random now p' Hin).
Qed.

(** ** The exit rules *)

Lemma profit_reached_iff (cfg : Config) (c : Q) (pu : Position) :
  0 < c ->
  (profit_reached c (buyPrice pu) (PROFIT_TARGET_PERCENT cfg) = true <->
   profit_rule cfg c pu).
Proof.
  intro Hc. unfold profit_reached, profit_rule.
  destruct (Qeq_bool (buyPrice pu) 0) eqn:E.
  - apply Qeq_bool_iff in E. split; [intros _; left; exact E|].
    intros _. apply Qgtb_true. rewrite E. lra.
  - rewrite Qgeb_true. split; [intro H; right; exact H|].
    intros [H | H]; [|exact H].
    apply Qeq_bool_iff in H. congruence.
Qed.


Lemma mint_is_set_peak (m : string) (p : Position) (price : Q) :
  mint_is m (set_peak p price) = mint_is m p.
Proof. reflexivity. Qed.

Lemma find_assign_peak (m : string) (price : Q) (l : list Position)
    (p0 : Position) :
  find (mint_is m) l = Some p0 ->
  find (mint_is m) (assign_peak m price l) = Some (set_peak p0 price).
Proof.
  induction l as [|p rest IH]; simpl; [discriminate|].
  destruct (mint_is m p) eqn:E; simpl.
  - intro H. injection H as ->. rewrite mint_is_set_peak, E. reflexivity.
  - rewrite E. exact IH.
Qed.




(** ** The qualifier *)

Lemma pool_too_old_false (cfg : Config) (now : Z) (poolData : PoolData) :
  pool_too_old cfg now (timestamp poolData) = false <->
  age_ok cfg now poolData.
Proof.
  unfold pool_too_old, age_ok. destruct (timestamp poolData) as [ts|].
  - unfold Qgtb. rewrite Qltb_false. split.
    + intros H ts' E. injection E as <-. exact H.
    + intro H. apply H. reflexivity.
  - split; [intros _ ts E; discriminate E|reflexivity].
Qed.

Lemma is_wrapped_sol_true (v : option string) :
  is_wrapped_sol v = true <-> v = Some WRAPPED_SOL_MINT.
Proof.
  destruct v as [str|]; simpl.
  - rewrite String.eqb_eq. split; [intros ->; reflexivity|congruence].
  - split; discriminate.
Qed.

Lemma is_wrapped_sol_false (m : string) :
  m <> WRAPPED_SOL_MINT -> is_wrapped_sol (Some m) = false.
Proof. intro H. simpl. apply String.eqb_neq. exact H. Qed.

Lemma truthy_string_true (v : option string) :
  truthy_string v = true <-> exists str, v = Some str /\ str <> ""%string.
Proof.
  destruct v as [str|]; simpl.
  - rewrite negb_true_iff, String.eqb_neq. split.
    + intro H. exists str. split; [reflexivity|exact H].
    + intros [str' [E H]]. injection E as ->. exact H.
  - split; [discriminate|]. intros [str [E _]]. discriminate E.
Qed.

Lemma truthy_number_false (v : option Q) :
  truthy_number v = false <->
  v = None \/ exists a, v = Some a /\ a == 0.
Proof.
  destruct v as [a|]; simpl.
  - rewrite negb_false_iff, Qeq_bool_iff. split.
    + intro H. right. exists a. split; [reflexivity|exact H].
    + intros [E | [a' [E H]]]; [discriminate E|]. injection E as ->. exact H.
  - split; [intros _; left; reflexivity|reflexivity].
Qed.

Lemma optimistic_iff (d : LiquidityData) :
  truthy_string (rawData d) && negb (truthy_number (solAmount d)) = true <->
  optimistic d.
Proof.
  unfold optimistic.
  rewrite andb_true_iff, negb_true_iff, truthy_string_true,
          truthy_number_false.
  reflexivity.
Qed.

Lemma identifyMints_pairs (poolData : PoolData) (m : string) :
  pairs_with_native poolData m ->
  identifyMints poolData = (Some WRAPPED_SOL_MINT, Some m).
Proof.
  intros [Hsol [_ [[HA HB] | [HB HA]]]]; unfold identifyMints.
  - rewrite HA, HB. reflexivity.
  - rewrite HA, HB. rewrite (is_wrapped_sol_false m Hsol). reflexivity.
Qed.

(** Past the age check, the pairing step either rejects or hands the
    candidate mint to the lookups. *)
Lemma pairing_outcome (poolData : PoolData) :
  (exists m, pairs_with_native poolData m) \/
  (forall m, ~ pairs_with_native poolData m) /\
  (let (solMint, newTokenMint) := identifyMints poolData in
   negb (truthy_string solMint) || negb (truthy_string newTokenMint) = true
   \/ is_wrapped_sol newTokenMint = true).
Proof.
  unfold identifyMints.
  destruct (is_wrapped_sol (tokenA_mint poolData)) eqn:EA.
  - apply is_wrapped_sol_true in EA.
    destruct (truthy_string (tokenB_mint poolData)) eqn:TB.
    + apply truthy_string_true in TB. destruct TB as [b [EB Hb]].
      destruct (is_wrapped_sol (tokenB_mint poolData)) eqn:WB.
      * right. split; [|right; reflexivity].
        apply is_wrapped_sol_true in WB.
        intros m [Hsol [_ [[_ HB] | [_ HA]]]]; congruence.
      * left. exists b. split; [|split; [exact Hb|left; split; assumption]].
        intro Hw. subst b.
        pose proof (proj2 (is_wrapped_sol_true _) EB). congruence.
    + right. split; [|left; rewrite orb_true_iff; right; reflexivity].
      intros m [Hsol [Hne [[_ HB] | [_ HA]]]].
      * rewrite HB in TB. simpl in TB. apply negb_false_iff in TB.
        apply String.eqb_eq in TB. exact (Hne TB).
      * congruence.
  - destruct (is_wrapped_sol (tokenB_mint poolData)) eqn:EB.
    + apply is_wrapped_sol_true in EB.
      destruct (truthy_string (tokenA_mint poolData)) eqn:TA.
      * apply truthy_string_true in TA. destruct TA as [a [HA Ha]].
        left. exists a. split; [|split; [exact Ha|right; split; assumption]].
        intro Hw. subst a.
        pose proof (proj2 (is_wrapped_sol_true _) HA). congruence.
      * right. split.
        -- intros m [Hsol [Hne [[HA _] | [_ HA]]]].
           ++ pose proof (proj2 (is_wrapped_sol_true _) HA). congruence.
           ++ rewrite HA in TA. simpl in TA. apply negb_false_iff in TA.
              apply String.eqb_eq in TA. exact (Hne TA).
        -- left. apply orb_true_r.
    + right. split; [|left; reflexivity].
      intros m [_ [_ [[HA _] | [HB _]]]].
      * apply is_wrapped_sol_true in HA. congruence.
      * apply is_wrapped_sol_true in HB. congruence.
Qed.

Lemma analyze_rejected_by_pairing (cfg : Config) (poolData : PoolData)
    (now : Z) (getMint : string -> option MintInfo)
    (getLiq : string -> option LiquidityData) :
  age_ok cfg now poolData ->
  (forall m, ~ pairs_with_native poolData m) ->
  rejected_by_pairing (analyzeTokenAndPool cfg poolData now getMint getLiq).
Proof.
  intros Hage Hno. apply pool_too_old_false in Hage.
  unfold analyzeTokenAndPool. rewrite Hage.
  destruct (pairing_outcome poolData) as [[m Hm] | [_ H]];
    [exfalso; exact (Hno m Hm)|].
  destruct (identifyMints poolData) as [solMint newTokenMint].
  destruct (negb (truthy_string solMint) || negb (truthy_string newTokenMint)).
  - split; [reflexivity|left; reflexivity].
  - destruct H as [H | H]; [discriminate H|]. rewrite H.
    split; [reflexivity|right; reflexivity].
Qed.

(** What is left of [analyzeTokenAndPool] once the age check and the
    pairing step have passed with candidate [m]. *)
Lemma analyze_after_pairing (cfg : Config) (poolData : PoolData) (now : Z)
    (getMint : string -> option MintInfo)
    (getLiq : string -> option LiquidityData) (m : string) :
  age_ok cfg now poolData ->
  pairs_with_native poolData m ->
  analyzeTokenAndPool cfg poolData now getMint getLiq =
    match getMint m with
    | None => reject MintInfoUnavailable
    | Some mintInfo =>
      match freezeAuthority mintInfo with
      | Some _ => reject FreezeAuthorityNotRevoked
      | None =>
        match getLiq (ammId poolData) with
        | None => reject LiquidityUnavailable
        | Some liquidityData =>
          match liquidityCheck cfg liquidityData with
          | Some r => reject r
          | None => mkVerdict true AllChecksPassed (Some m)
                              (Some (ammId poolData))
          end
        end
      end
    end.
Proof.
  intros Hage Hm. apply pool_too_old_false in Hage.
  unfold analyzeTokenAndPool. rewrite Hage.
  rewrite (identifyMints_pairs poolData m Hm).
  destruct Hm as [Hsol [Hne _]].
  assert (truthy_string (Some m) = true) as Ht.
  { apply truthy_string_true. exists m. split; [reflexivity|exact Hne]. }
  rewrite Ht. rewrite (is_wrapped_sol_false m Hsol). reflexivity.
Qed.

Lemma analyze_too_old (cfg : Config) (poolData : PoolData) (now : Z)
    (getMint : string -> option MintInfo)
    (getLiq : string -> option LiquidityData) :
  ~ age_ok cfg now poolData ->
  analyzeTokenAndPool cfg poolData now getMint getLiq = reject PoolTooOld.
Proof.
  intro H. unfold analyzeTokenAndPool.
  destruct (pool_too_old cfg now (timestamp poolData)) eqn:E;
    [reflexivity|].
  apply pool_too_old_false in E. contradiction.
Qed.

Lemma liquidityCheck_cases (cfg : Config) (d : LiquidityData) :
  (optimistic d /\ liquidityCheck cfg d = None) \/
  (~ optimistic d /\
   ((solAmount d = None /\
     liquidityCheck cfg d = Some UnexpectedLiquidityFormat) \/
    (exists a, solAmount d = Some a /\ a < MIN_LIQUIDITY_SOL cfg /\
               liquidityCheck cfg d = Some InsufficientLiquidity) \/
    (exists a, solAmount d = Some a /\ MIN_LIQUIDITY_SOL cfg <= a /\
               liquidityCheck cfg d = None))).
Proof.
  unfold liquidityCheck.
  destruct (truthy_string (rawData d) && negb (truthy_number (solAmount d)))
    eqn:E.
  - left. split; [apply optimistic_iff; exact E|reflexivity].
  - right. split.
    + intro H. apply optimistic_iff in H. congruence.
    + destruct (solAmount d) as [a|]; [|left; split; reflexivity].
      right. destruct (Qltb a (MIN_LIQUIDITY_SOL cfg)) eqn:El.
      * left. exists a. split; [reflexivity|].
        split; [apply Qltb_true; exact El|reflexivity].
      * right. exists a. split; [reflexivity|].
        split; [apply Qltb_false; exact El|reflexivity].
Qed.

(** The liquidity step of [analyzeTokenAndPool], for a pool event that has
    passed the age, pairing and freeze-authority checks: a failed lookup,
    data with neither raw data nor an amount, and an amount below the
    minimum are rejected; raw data without an amount is let through, and
    the verdict is then an accept for which no reserve was compared with
    [MIN_LIQUIDITY_SOL]. *)
Lemma liquidity_step (cfg : Config) (poolData : PoolData) (now : Z)
    (getMint : string -> option MintInfo)
    (getLiq : string -> option LiquidityData) (m : string) :
  age_ok cfg now poolData ->
  pairs_with_native poolData m ->
  getMint m = Some (mkMintInfo None) ->
  let v := analyzeTokenAndPool cfg poolData now getMint getLiq in
  let accept := mkVerdict true AllChecksPassed (Some m)
                          (Some (ammId poolData)) in
  (getLiq (ammId poolData) = None -> v = reject LiquidityUnavailable) /\
  (forall d, getLiq (ammId poolData) = Some d ->
     (optimistic d -> v = accept) /\
     (~ optimistic d -> solAmount d = None ->
        v = reject UnexpectedLiquidityFormat) /\
     (~ optimistic d -> forall a, solAmount d = Some a ->
        (a < MIN_LIQUIDITY_SOL cfg -> v = reject InsufficientLiquidity) /\
        (MIN_LIQUIDITY_SOL cfg <= a -> v = accept))) /\
  (suitable v = true <->
   exists d, getLiq (ammId poolData) = Some d /\
     (optimistic d \/
      exists a, solAmount d = Some a /\ MIN_LIQUIDITY_SOL cfg <= a)).
Proof.
  intros Hage Hm Hmint v accept. subst v.
  rewrite (analyze_after_pairing cfg poolData now getMint getLiq m Hage Hm).
  rewrite Hmint. simpl.
  destruct (getLiq (ammId poolData)) as [d|].
  2:{ split; [reflexivity|]. split; [discriminate|].
      split; [discriminate|]. intros [d [E _]]. discriminate E. }
  split; [discriminate|].
  destruct (liquidityCheck_cases cfg d)
    as [[Ho E] | [Hno [[Hs E] | [[a [Hs [Hlt E]]] | [a [Hs [Hge E]]]]]]];
    rewrite E.
  - split.
    + intros d' Hd'. injection Hd' as <-.
      split; [reflexivity|]. split; [contradiction|]. contradiction.
    + split; [intros _; exists d; split; [reflexivity|left; exact Ho]|].
      reflexivity.
  - split.
    + intros d' Hd'. injection Hd' as <-.
      split; [contradiction|]. split; [reflexivity|].
      intros _ a Ha. congruence.
    + split; [discriminate|].
      intros [d' [Hd' [Ho | [a [Ha _]]]]]; injection Hd' as <-;
        [contradiction|congruence].
  - split.
    + intros d' Hd'. injection Hd' as <-.
      split; [contradiction|]. split; [congruence|].
      intros _ a' Ha'. assert (a' = a) as -> by congruence.
      split; [reflexivity|]. intro Hge. exfalso.
      exact (Qlt_not_le _ _ Hlt Hge).
    + split; [discriminate|].
      intros [d' [Hd' [Ho | [a' [Ha' Hge]]]]]; injection Hd' as <-;
        [contradiction|].
      assert (a' = a) as -> by congruence. exfalso.
      exact (Qlt_not_le _ _ Hlt Hge).
  - split.
    + intros d' Hd'. injection Hd' as <-.
      split; [contradiction|]. split; [congruence|].
      intros _ a' Ha'. assert (a' = a) as -> by congruence.
      split; [|reflexivity]. intro Hlt. exfalso.
      exact (Qlt_not_le _ _ Hlt Hge).
    + split; [|reflexivity]. intros _. exists d. split; [reflexivity|].
      right. exists a. split; assumption.
Qed.

(** C1: the source departs from the claim.  For a pool event that passes
    the age, pairing and freeze-authority checks and whose liquidity lookup
    returns raw data without a SOL amount, [analyzeTokenAndPool] returns
    [suitable = true] (all checks passed), although no native reserve was
    read, let alone compared with [MIN_LIQUIDITY_SOL]. *)
Theorem unparsed_liquidity_is_accepted :
  let v := analyzeTokenAndPool default_config fresh_sol_pool 60000
             (fun _ => Some (mkMintInfo None)) (fun _ => Some raw_only) in
  solAmount raw_only = None /\
  suitable v = true /\
  v = mkVerdict true AllChecksPassed (Some "TOKEN"%string)
                (Some "POOL"%string).
Proof. vm_compute. repeat split; reflexivity. Qed.

(** C8, as stated, fails when the other reserve mint is missing: precisely
    one of the two mints is the wrapped-SOL mint and the pool is young, yet
    the pairing step rejects. *)
Lemma missing_mint_counterexample :
  tokenA_mint pool_missing_mint = Some WRAPPED_SOL_MINT /\
  tokenB_mint pool_missing_mint <> Some WRAPPED_SOL_MINT /\
  age_ok default_config 60000 pool_missing_mint /\
  analyzeTokenAndPool default_config pool_missing_mint 60000
    (fun _ => Some (mkMintInfo None))
    (fun _ => Some (mkLiquidityData None (Some 100)))
  = reject NotDirectSolPair.
Proof.
  split; [reflexivity|]. split; [discriminate|]. split; [|reflexivity].
  apply pool_too_old_false. reflexivity.
Qed.

(** C8 (amended): the pairing step lets a pool event through exactly when
    precisely one of the two reserve mints is the wrapped-SOL mint and the
    other mint is present (neither missing nor empty).  If neither mint is
    the wrapped-SOL mint the verdict is a reject, and so it is if both are;
    and an accept verdict carries the non-native mint as its token together
    with the pool id. *)
Theorem pairing_rule (cfg : Config) (poolData : PoolData) (now : Z)
    (getMint : string -> option MintInfo)
    (getLiq : string -> option LiquidityData) :
  let v := analyzeTokenAndPool cfg poolData now getMint getLiq in
  (tokenA_mint poolData <> Some WRAPPED_SOL_MINT ->
   tokenB_mint poolData <> Some WRAPPED_SOL_MINT ->
   suitable v = false) /\
  (tokenA_mint poolData = Some WRAPPED_SOL_MINT ->
   tokenB_mint poolData = Some WRAPPED_SOL_MINT ->
   suitable v = false) /\
  (age_ok cfg now poolData ->
   (rejected_by_pairing v <-> ~ exists m, pairs_with_native poolData m)) /\
  (suitable v = true ->
   exists m, pairs_with_native poolData m /\
             tokenMint v = Some m /\
             verdictPoolId v = Some (ammId poolData)).
Proof.
  intro v.
  assert (age_ok cfg now poolData \/ ~ age_ok cfg now poolData) as Hage.
  { rewrite <- pool_too_old_false.
    destruct (pool_too_old cfg now (timestamp poolData));
      [right; discriminate|left; reflexivity]. }
  assert (forall m, pairs_with_native poolData m ->
          age_ok cfg now poolData ->
          ~ rejected_by_pairing v /\
          (suitable v = true ->
           tokenMint v = Some m /\ verdictPoolId v = Some (ammId poolData)))
    as Hpast.
  { intros m Hm Ha. subst v.
    rewrite (analyze_after_pairing cfg poolData now getMint getLiq m Ha Hm).
    destruct (getMint m) as [mi|].
    2:{ split; [intros [_ [H | H]]; discriminate H|discriminate]. }
    destruct (freezeAuthority mi).
    { split; [intros [_ [H | H]]; discriminate H|discriminate]. }
    destruct (getLiq (ammId poolData)) as [d|].
    2:{ split; [intros [_ [H | H]]; discriminate H|discriminate]. }
    destruct (liquidityCheck_cases cfg d)
      as [[_ E] | [_ [[_ E] | [[a [_ [_ E]]] | [a [_ [_ E]]]]]]];
      rewrite E; simpl;
      (split; [intros [_ [H | H]]; discriminate H|]);
      first [discriminate | intros _; split; reflexivity]. }
  assert ((forall m, ~ pairs_with_native poolData m) -> suitable v = false)
    as Hnone.
  { intro Hno. destruct Hage as [Ha | Ha].
    - apply (analyze_rejected_by_pairing cfg poolData now getMint getLiq Ha Hno).
    - subst v. rewrite (analyze_too_old _ _ _ _ _ Ha). reflexivity. }
  split; [|split; [|split]].
  - intros HA HB. apply Hnone.
    intros m [_ [_ [[H _] | [H _]]]]; contradiction.
  - intros HA HB. apply Hnone.
    intros m [Hsol [_ [[_ H] | [_ H]]]]; congruence.
  - intro Ha. split.
    + intros Hrej [m Hm]. exact (proj1 (Hpast m Hm Ha) Hrej).
    + intro Hno.
      apply (analyze_rejected_by_pairing cfg poolData now getMint getLiq Ha).
      intros m Hm. apply Hno. exists m. exact Hm.
  - intro Hs. destruct (pairing_outcome poolData) as [[m Hm] | [Hno _]].
    + exists m. split; [exact Hm|].
      destruct Hage as [Ha | Ha].
      * exact (proj2 (Hpast m Hm Ha) Hs).
      * subst v. rewrite (analyze_too_old _ _ _ _ _ Ha) in Hs. discriminate Hs.
    + rewrite (Hnone Hno) in Hs. discriminate Hs.
Qed.

(** ** Worked instances *)




Lemma simulateBuy_admission_witness :
  simulateBuy default_config (module_load default_config [])
              "MINT" "POOL" 1 (1 # 2) 0
    = (bought_at_one, Some first_position) /\
  canBuy default_config (module_load default_config []) "MINT" = true /\
  virtualBudget bought_at_one = 5 - (1 # 2) /\
  activePositions bought_at_one = [first_position] /\
  peakPrice first_position = 1 /\
  canBuy default_config bought_at_one "MINT" = false /\
  simulateBuy default_config bought_at_one "MINT" "POOL" 2 (1 # 2) 5
    = (bought_at_one, None).
Proof.
  assert (simulateBuy default_config (module_load default_config [])
                      "MINT" "POOL" 1 (1 # 2) 0
          = (bought_at_one, Some first_position)) as Hbuy by reflexivity.
  assert (canBuy default_config bought_at_one "MINT" = false) as Hno
    by reflexivity.
  destruct (simulateBuy_admission default_config
              (module_load default_config []) "MINT" "POOL" 1 (1 # 2) 0)
    as [_ [_ Hok]].
  destruct (Hok bought_at_one first_position Hbuy)
    as [Hcan [_ [_ [_ [Hbudget [Hpos [_ [_ [_ [Hpeak _]]]]]]]]]].
  split; [exact Hbuy|]. split; [exact Hcan|]. split; [exact Hbudget|].
  split; [exact Hpos|]. split; [exact Hpeak|]. split; [exact Hno|].
  exact (proj1 (proj2 (simulateBuy_admission default_config bought_at_one
                         "MINT" "POOL" 2 (1 # 2) 5)) Hno).
Defined.


Lemma simulateSell_contract_witness :
  (exists q, In q (activePositions bought_at_one) /\
             tokenMintAddress q = tokenMintAddress first_position) /\
  0 <= calculateSolForTokens (tokenAmount first_position) 2
         (25 # 10000) (sellSlippage (1 # 2)) /\
  snd (simulateSell default_config bought_at_one (Some first_position) 2
                    "profit_target" (1 # 2) 60000)
    = Some (calculateSolForTokens (tokenAmount first_position) 2
              (25 # 10000) (sellSlippage (1 # 2)),
            first_position) /\
  (forall q, In q (activePositions bought_at_one) ->
             tokenMintAddress q <> tokenMintAddress restored_position) /\
  snd (simulateSell default_config bought_at_one (Some restored_position) 2
                    "time_limit" (1 # 2) 60000) = None /\
  fst (simulateSell default_config bought_at_one (Some restored_position) 2
                    "time_limit" (1 # 2) 60000) = bought_at_one.
Proof.
  assert (exists q, In q (activePositions bought_at_one) /\
                    tokenMintAddress q = tokenMintAddress first_position)
    as Hopen.
  { exists first_position. split; [left; reflexivity|reflexivity]. }
  assert (0 <= calculateSolForTokens (tokenAmount first_position) 2
                 (25 # 10000) (sellSlippage (1 # 2))) as Hnn
    by (vm_compute; discriminate).
  assert (forall q, In q (activePositions bought_at_one) ->
                    tokenMintAddress q <> tokenMintAddress restored_position)
    as Hno.
  { intros q [<- | []]. discriminate. }
  destruct (simulateSell_contract default_config bought_at_one
              (Some first_position) 2 "profit_target" (1 # 2) 60000)
    as [_ [_ [_ [Hok _]]]].
  destruct (simulateSell_contract default_config bought_at_one
              (Some restored_position) 2 "time_limit" (1 # 2) 60000)
    as [Hrej [_ [Hsame _]]].
  pose proof (Hrej restored_position eq_refl Hno) as Hnone.
  split; [exact Hopen|]. split; [exact Hnn|].
  split; [exact (Hok first_position eq_refl Hopen Hnn)|].
  split; [exact Hno|]. split; [exact Hnone|exact (Hsame Hnone)].
Defined.


Lemma restart_keeps_full_budget_witness :
  0 <= VIRTUAL_BUDGET_SOL default_config /\
  virtualBudget restarted = 5 /\
  getActivePositions restarted = [restored_position].
Proof.
  assert (0 <= VIRTUAL_BUDGET_SOL default_config) as Hb by discriminate.
  destruct (restart_keeps_full_budget default_config [restored_position] Hb)
    as [Hbudget [_ [Hpos _]]].
  split; [exact Hb|]. split; [exact Hbudget|exact Hpos].
Defined.

Lemma budget_and_count_bounded_witness :
  0 <= VIRTUAL_BUDGET_SOL default_config /\
  0 <= virtualBudget
         (run default_config (module_load default_config [])
            [OpBuy "MINT" "POOL" 1 (1 # 2) 0;
             OpSell (Some first_position) (1 # 2) "time_limit" (1 # 2) 9;
             OpBuy "MINT" "POOL" 2 (1 # 4) 10]) /\
  (List.length
     (activePositions
        (run default_config (module_load default_config [])
           [OpBuy "MINT" "POOL" 1 (1 # 2) 0;
            OpSell (Some first_position) (1 # 2) "time_limit" (1 # 2) 9;
            OpBuy "MINT" "POOL" 2 (1 # 4) 10]))
   <= MAX_CONCURRENT_POSITIONS default_config)%nat.
Proof.
  assert (0 <= VIRTUAL_BUDGET_SOL default_config) as Hb by discriminate.
  split; [exact Hb|].
  exact (budget_and_count_bounded default_config [] _ Hb).
Defined.

Lemma peak_never_below_buy_witness :
  Forall (fun p => buyPrice p <= peakPrice p) [restored_position] /\
  (forall p,
     In p (activePositions
             (run default_config restarted
                [OpBuy "MINT" "POOL" 1 (1 # 2) 0;
                 OpMonitor (fun _ => Some (11 # 10)) (fun _ => 1 # 2) 60000;
                 OpUpdatePeak "MINT" 2])) ->
     buyPrice p <= peakPrice p).
Proof.
  assert (Forall (fun p => buyPrice p <= peakPrice p) [restored_position])
    as Hfile.
  { constructor; [discriminate|constructor]. }
  split; [exact Hfile|].
  exact (proj1 (peak_never_below_buy default_config [restored_position]
                  [OpBuy "MINT" "POOL" 1 (1 # 2) 0;
                   OpMonitor (fun _ => Some (11 # 10)) (fun _ => 1 # 2) 60000;
                   OpUpdatePeak "MINT" 2] Hfile)).
Defined.


Lemma pairing_rule_witness :
  suitable (analyzeTokenAndPool default_config fresh_sol_pool 60000
              (fun _ => Some (mkMintInfo None))
              (fun _ => Some (mkLiquidityData None (Some 100)))) = true /\
  (exists m, pairs_with_native fresh_sol_pool m /\
     tokenMint (analyzeTokenAndPool default_config fresh_sol_pool 60000
                  (fun _ => Some (mkMintInfo None))
                  (fun _ => Some (mkLiquidityData None (Some 100))))
       = Some m /\
     verdictPoolId (analyzeTokenAndPool default_config fresh_sol_pool 60000
                      (fun _ => Some (mkMintInfo None))
                      (fun _ => Some (mkLiquidityData None (Some 100))))
       = Some (ammId fresh_sol_pool)) /\
  tokenA_mint pool_without_sol <> Some WRAPPED_SOL_MINT /\
  tokenB_mint pool_without_sol <> Some WRAPPED_SOL_MINT /\
  suitable (analyzeTokenAndPool default_config pool_without_sol 60000
              (fun _ => Some (mkMintInfo None))
              (fun _ => Some (mkLiquidityData None (Some 100)))) = false.
Proof.
  assert (suitable (analyzeTokenAndPool default_config fresh_sol_pool 60000
                      (fun _ => Some (mkMintInfo None))
                      (fun _ => Some (mkLiquidityData None (Some 100))))
          = true) as Hs by reflexivity.
  assert (tokenA_mint pool_without_sol <> Some WRAPPED_SOL_MINT) as HA
    by discriminate.
  assert (tokenB_mint pool_without_sol <> Some WRAPPED_SOL_MINT) as HB
    by discriminate.
  split; [exact Hs|]. split.
  - exact (proj2 (proj2 (proj2
             (pairing_rule default_config fresh_sol_pool 60000
                (fun _ => Some (mkMintInfo None))
                (fun _ => Some (mkLiquidityData None (Some 100)))))) Hs).
  - split; [exact HA|]. split; [exact HB|].
    exact (proj1 (pairing_rule default_config pool_without_sol 60000
                    (fun _ => Some (mkMintInfo None))
                    (fun _ => Some (mkLiquidityData None (Some 100))))
             HA HB).
Defined.

(** * Further properties of the modelled code *)

(** ** The ledger: unique mints *)

Lemma mints_app (l1 l2 : list Position) :
  mints (l1 ++ l2) = mints l1 ++ mints l2.
Proof. apply map_app. Qed.

Lemma mints_assign_peak (m : string) (price : Q) (l : list Position) :
  mints (assign_peak m price l) = mints l.
Proof.
  induction l as [|p rest IH]; simpl; [reflexivity|].
  destruct (mint_is m p); simpl; [reflexivity|]. f_equal. exact IH.
Qed.

Lemma in_mints (m : string) (l : list Position) :
  In m (mints l) <-> exists p, In p l /\ tokenMintAddress p = m.
Proof.
  unfold mints. rewrite in_map_iff. split; intros [p [H1 H2]]; exists p;
    split; assumption.
Qed.

Lemma mints_filter_incl (f : Position -> bool) (l : list Position) (m : string) :
  In m (mints (filter f l)) -> In m (mints l).
Proof.
  rewrite !in_mints. intros [p [Hin Hp]]. apply filter_In in Hin.
  exists p. split; [exact (proj1 Hin)|exact Hp].
Qed.

Lemma NoDup_mints_filter (f : Position -> bool) (l : list Position) :
  NoDup (mints l) -> NoDup (mints (filter f l)).
Proof.
  induction l as [|p rest IH]; simpl; intro H; [constructor|].
  inversion H as [|x xs Hnotin Hrest]; subst.
  destruct (f p); simpl.
  - constructor; [|apply IH; exact Hrest].
    intro Hin. apply Hnotin. apply (mints_filter_incl f). exact Hin.
  - apply IH. exact Hrest.
Qed.

Lemma NoDup_mints_snoc (l : list Position) (p : Position) :
  NoDup (mints l) ->
  (forall q, In q l -> tokenMintAddress q <> tokenMintAddress p) ->
  NoDup (mints (l ++ [p])).
Proof.
  intros Hl Hnew. rewrite mints_app. simpl.
  apply NoDup_app; [exact Hl|constructor; [intros []|constructor]|].
  intros m Hin [<- | []].
  apply in_mints in Hin. destruct Hin as [q [Hq Hm]]. exact (Hnew q Hq Hm).
Qed.

Lemma unique_buy (cfg : Config) (s : Ledger) (m pool : string)
    (price rnd : Q) (now : Z) :
  NoDup (mints (activePositions s)) ->
  NoDup (mints (activePositions
                  (fst (simulateBuy cfg s m pool price rnd now)))).
Proof.
  intro Hs.
  destruct (buy_outcome cfg s m pool price rnd now) as [E | [pos E]].
  - rewrite E. exact Hs.
  - destruct (simulateBuy_success _ _ _ _ _ _ _ _ _ E) as [Hc [Hp [_ Hs']]].
    apply canBuy_true_iff in Hc. destruct Hc as [_ [_ Hfresh]].
    rewrite Hs'. simpl. apply NoDup_mints_snoc; [exact Hs|].
    rewrite Hp. simpl. exact Hfresh.
Qed.

Lemma unique_sell (cfg : Config) (s : Ledger) (position : option Position)
    (price : Q) (why : string) (rnd : Q) (now : Z) :
  NoDup (mints (activePositions s)) ->
  NoDup (mints (activePositions
                  (fst (simulateSell cfg s position price why rnd now)))).
Proof.
  intro Hs.
  destruct (sell_outcome cfg s position price why rnd now)
    as [E | [p [proceeds [_ [_ E]]]]]; rewrite E; simpl.
  - exact Hs.
  - apply NoDup_mints_filter. exact Hs.
Qed.

Lemma unique_peak (s : Ledger) (m : string) (price : Q) :
  NoDup (mints (activePositions s)) ->
  NoDup (mints (activePositions (updatePeakPrice s m price))).
Proof.
  intro Hs.
  destruct (peak_outcome s m price) as [E | [position [_ [_ E]]]]; rewrite E.
  - exact Hs.
  - simpl. rewrite mints_assign_peak. exact Hs.
Qed.

Lemma unique_run (cfg : Config) (ops : list Op) (s : Ledger) :
  NoDup (mints (activePositions s)) ->
  NoDup (mints (activePositions (run cfg s ops))).
Proof.
  apply (preserved_by_run cfg
           (fun st => NoDup (mints (activePositions st)))).
  - intros. apply unique_buy. assumption.
  - intros. apply unique_sell. assumption.
  - intros. apply unique_peak. assumption.
Qed.

Lemma initialize_positions (cfg : Config) (file : list Position) :
  activePositions (initializeTrading (module_load cfg file)) = file /\
  activeTradesFile (initializeTrading (module_load cfg file)) = file /\
  completedTrades (initializeTrading (module_load cfg file)) = [].
Proof.
  unfold initializeTrading, module_load, loadActiveTrades. simpl.
  destruct file as [|p rest]; simpl;
    destruct (Qltb (VIRTUAL_BUDGET_SOL cfg) 0); simpl;
    repeat split; reflexivity.
Qed.

(** X1: the open positions are keyed by mint.  If the persisted positions
    have pairwise distinct mints (the empty file included), then in every
    state that buys, sells, peak updates and exit sweeps reach after
    [initializeTrading], no two open positions have the same mint. *)
Theorem mints_stay_unique (cfg : Config) (file : list Position)
    (ops : list Op) :
  NoDup (map tokenMintAddress file) ->
  NoDup (map tokenMintAddress
           (activePositions
              (run cfg (initializeTrading (module_load cfg file)) ops))).
Proof.
  intro Hfile. apply (unique_run cfg ops).
  rewrite (proj1 (initialize_positions cfg file)). exact Hfile.
Qed.

(** ** The ledger: the active-trades file mirrors the open positions *)





(** ** The ledger: a position is sold at most once *)

Lemma find_mint_filtered (m : string) (l : list Position) :
  find (mint_is m) (filter (fun q => negb (mint_is m q)) l) = None.
Proof.
  apply find_mint_none. intros q Hin.
  apply filter_other_mints in Hin. exact (proj2 Hin).
Qed.

(** X3: once [simulateSell] has succeeded for a position, no position of
    that mint is open, and selling the same position again, at any price and
    for any reason, returns [null] and changes nothing. *)
Theorem no_double_sell (cfg : Config) (s s' : Ledger) (p : Position)
    (price : Q) (why : string) (rnd : Q) (now : Z) (sold : Q * Position) :
  simulateSell cfg s (Some p) price why rnd now = (s', Some sold) ->
  (forall q, In q (activePositions s') ->
             tokenMintAddress q <> tokenMintAddress p) /\
  (forall price' why' rnd' now',
     simulateSell cfg s' (Some p) price' why' rnd' now' = (s', None)).
Proof.
  intro H.
  destruct (simulateSell_cases cfg s (Some p) price why rnd now)
    as [[Hr _] | [p' [proceeds [Hp [_ [_ [_ Hr]]]]]]];
    rewrite Hr in H; [discriminate H|].
  injection Hp as <-. injection H as <- _. simpl.
  split.
  - intros q Hin. apply filter_other_mints in Hin. exact (proj2 Hin).
  - intros price' why' rnd' now'. unfold simulateSell. simpl.
    rewrite find_mint_filtered. reflexivity.
Qed.

(** ** The ledger: the completed-trades log *)

Lemma extends_log_refl (s : Ledger) : extends_log s s.
Proof. exists []. split; [symmetry; apply app_nil_r|constructor]. Qed.

Lemma extends_log_trans (s1 s2 s3 : Ledger) :
  extends_log s1 s2 -> extends_log s2 s3 -> extends_log s1 s3.
Proof.
  intros [a [Ha Fa]] [b [Hb Fb]]. exists (a ++ b). split.
  - rewrite Hb, Ha. symmetry. apply app_assoc.
  - apply Forall_app. split; assumption.
Qed.

Lemma extends_log_buy (cfg : Config) (s : Ledger) (m pool : string)
    (price rnd : Q) (now : Z) :
  extends_log s (fst (simulateBuy cfg s m pool price rnd now)).
Proof.
  destruct (buy_outcome cfg s m pool price rnd now) as [E | [pos E]].
  - rewrite E. apply extends_log_refl.
  - destruct (simulateBuy_success _ _ _ _ _ _ _ _ _ E) as [_ [_ [_ Hs']]].
    rewrite Hs'. exists []. simpl.
    split; [symmetry; apply app_nil_r|constructor].
Qed.

Lemma extends_log_sell (cfg : Config) (s : Ledger)
    (position : option Position) (price : Q) (why : string) (rnd : Q)
    (now : Z) :
  extends_log s (fst (simulateSell cfg s position price why rnd now)).
Proof.
  destruct (sell_outcome cfg s position price why rnd now)
    as [E | [p [proceeds [_ [Hnn E]]]]]; rewrite E.
  - apply extends_log_refl.
  - eexists. simpl. split; [reflexivity|].
    constructor; [|constructor]. split; [exact Hnn|reflexivity].
Qed.

Lemma extends_log_peak (s : Ledger) (m : string) (price : Q) :
  extends_log s (updatePeakPrice s m price).
Proof.
  destruct (peak_outcome s m price) as [E | [position [_ [_ E]]]]; rewrite E.
  - apply extends_log_refl.
  - exists []. simpl. split; [symmetry; apply app_nil_r|constructor].
Qed.

(** X5: the completed-trades log is append-only.  Whatever the operations,
    the log after a run is the log before it followed by the trades the run
    logged, and each of those has non-negative proceeds and a profit or loss
    equal to its proceeds minus the SOL cost of the position sold. *)
Theorem log_is_append_only (cfg : Config) (s : Ledger) (ops : list Op) :
  exists added,
    completedTrades (run cfg s ops) = completedTrades s ++ added /\
    Forall (fun t => 0 <= solProceeds t /\
                     profitOrLoss t =
                       solProceeds t - tradeSizeSol (soldFields t))
           added.
Proof.
  apply (preserved_by_run cfg (extends_log s)).
  - intros st m pool price rnd now H.
    apply (extends_log_trans _ _ _ H). apply extends_log_buy.
  - intros st pos price why rnd now H.
    apply (extends_log_trans _ _ _ H). apply extends_log_sell.
  - intros st m price H.
    apply (extends_log_trans _ _ _ H). apply extends_log_peak.
  - apply extends_log_refl.
Qed.

(** ** The ledger: where the budget went *)









(** ** The ledger: the stored peak is a running maximum *)

Lemma find_after_update (s : Ledger) (m : string) (c : Q) (p0 : Position) :
  find (mint_is m) (activePositions s) = Some p0 ->
  exists pu,
    find (mint_is m) (activePositions (updatePeakPrice s m c)) = Some pu /\
    raised c p0 pu /\ c <= peakPrice pu.
Proof.
  intro Hf. unfold updatePeakPrice. rewrite Hf.
  destruct (Qgtb c (peakPrice p0)) eqn:Eg; simpl.
  - exists (set_peak p0 c). split; [apply find_assign_peak; exact Hf|].
    split; [right; split; [apply Qgtb_true; exact Eg|reflexivity]|].
    simpl. apply Qle_refl.
  - exists p0. split; [exact Hf|]. split; [left; reflexivity|].
    apply Qltb_false. exact Eg.
Qed.

(** X6: the stored peak is the running maximum of the observed prices.
    After [updatePeakPrice] has been called for an open mint with each price
    of a list in turn, the position found for that mint has all its other
    fields unchanged, and its peak is at least the peak stored before and at
    least every price of the list, and it is the peak stored before or one
    of the prices. *)
Theorem peak_is_running_maximum (s : Ledger) (m : string)
    (prices : list Q) (p0 : Position) :
  find (mint_is m) (activePositions s) = Some p0 ->
  exists pu,
    find (mint_is m)
         (activePositions
            (fold_left (fun st c => updatePeakPrice st m c) prices s))
      = Some pu /\
    pu = set_peak p0 (peakPrice pu) /\
    peakPrice p0 <= peakPrice pu /\
    Forall (fun c => c <= peakPrice pu) prices /\
    (peakPrice pu = peakPrice p0 \/ In (peakPrice pu) prices).
Proof.
  revert s p0. induction prices as [|c rest IH]; intros s p0 Hf; simpl.
  - exists p0. split; [exact Hf|]. split; [symmetry; apply set_peak_same|].
    split; [apply Qle_refl|]. split; [constructor|left; reflexivity].
  - destruct (find_after_update s m c p0 Hf) as [p1 [Hf1 [Hr Hc]]].
    destruct (IH _ p1 Hf1) as [pu [Hfu [Hsame [Hle [Hall Hwhich]]]]].
    exists pu. split; [exact Hfu|].
    assert (p1 = set_peak p0 (peakPrice p1) /\ peakPrice p0 <= peakPrice p1
            /\ (peakPrice p1 = peakPrice p0 \/ peakPrice p1 = c))
      as [E1 [Hle1 Hw1]].
    { destruct Hr as [-> | [Hlt ->]].
      - split; [symmetry; apply set_peak_same|].
        split; [apply Qle_refl|left; reflexivity].
      - simpl. split; [reflexivity|].
        split; [apply Qlt_le_weak; exact Hlt|right; reflexivity]. }
    split; [rewrite Hsame; rewrite E1; reflexivity|].
    split; [apply (Qle_trans _ _ _ Hle1 Hle)|].
    split; [constructor; [apply (Qle_trans _ _ _ Hc Hle)|exact Hall]|].
    destruct Hwhich as [Hw | Hw].
    + destruct Hw1 as [Hw1 | Hw1].
      * left. congruence.
      * right. left. congruence.
    + right. right. exact Hw.
Qed.

(** ** The exit sweep *)

Lemma check_skips (cfg : Config) (s : Ledger) (position : Position)
    (price : option Q) (rnd : Q) (now : Z) :
  price = None \/ (exists c, price = Some c /\ c <= 0) ->
  checkExitConditions cfg s position price rnd now = mkExitCheck s false [].
Proof.
  intros [-> | [c [-> Hc]]]; unfold checkExitConditions; [reflexivity|].
  apply Qle_bool_true in Hc. rewrite Hc. reflexivity.
Qed.

(** X7: retry next cycle.  When the price feed has no usable price
    ([null], zero or negative) for the pool of any open position, a sweep
    of [monitorTrades] leaves the whole ledger as it was: no peak is
    touched, nothing is sold, nothing is written. *)
Theorem sweep_without_prices (cfg : Config) (s : Ledger)
    (feed : string -> option Q) (random : string -> Q) (now : Z) :
  (forall p, In p (activePositions s) ->
     feed (poolId p) = None \/
     exists c, feed (poolId p) = Some c /\ c <= 0) ->
  monitorTrades cfg s feed random now = s.
Proof.
  unfold monitorTrades, getActivePositions.
  generalize (activePositions s) as snapshot.
  induction snapshot as [|p rest IH]; intro Hfeed; simpl; [reflexivity|].
  rewrite (check_skips cfg s p (feed (poolId p)) _ now
             (Hfeed p (or_introl eq_refl))).
  simpl. apply IH. intros q Hq. apply Hfeed. right. exact Hq.
Qed.

Lemma never_buys_refl (s : Ledger) :
  virtualBudget s <= virtualBudget s /\
  (List.length (activePositions s) <= List.length (activePositions s))%nat.
Proof. split; [apply Qle_refl|lia]. Qed.

(** X8: a sweep only sells.  [monitorTrades] never lowers the budget, never
    raises the number of open positions, leaves open only positions that
    were open before (same fields, peak not lower), and only appends
    consistent trades to the log. *)
Theorem sweep_only_sells (cfg : Config) (s : Ledger)
    (feed : string -> option Q) (random : string -> Q) (now : Z) :
  let s' := monitorTrades cfg s feed random now in
  virtualBudget s <= virtualBudget s' /\
  (List.length (activePositions s') <= List.length (activePositions s))%nat /\
  (forall p', In p' (activePositions s') ->
     exists p, In p (activePositions s) /\
               p' = set_peak p (peakPrice p') /\
               peakPrice p <= peakPrice p') /\
  (exists added,
     completedTrades s' = completedTrades s ++ added /\
     Forall (fun t => 0 <= solProceeds t /\
                      profitOrLoss t =
                        solProceeds t - tradeSizeSol (soldFields t))
            added).
Proof.
  intro s'. subst s'.
  assert (virtualBudget s <= virtualBudget (monitorTrades cfg s feed random now)
          /\ (List.length (activePositions
                             (monitorTrades cfg s feed random now))
              <= List.length (activePositions s))%nat) as [Hb Hn].
  { apply (preserved_by_monitor cfg
             (fun st => virtualBudget s <= virtualBudget st /\
                        (List.length (activePositions st)
                         <= List.length (activePositions s))%nat)).
    - intros st pos price why rnd now' [H1 H2].
      destruct (sell_outcome cfg st pos price why rnd now')
        as [E | [p [proceeds [_ [Hnn E]]]]]; rewrite E; [split; assumption|].
      simpl. split; [lra|].
      pose proof (filter_length_le
                    (fun q => negb (mint_is (tokenMintAddress p) q))
                    (activePositions st)). lia.
    - intros st m price [H1 H2].
      destruct (peak_outcome st m price) as [E | [position [_ [_ E]]]];
        rewrite E; [split; assumption|].
      simpl. rewrite assign_peak_length. split; assumption.
    - apply never_buys_refl. }
  split; [exact Hb|]. split; [exact Hn|]. split.
  - apply monitor_carried.
  - apply (preserved_by_monitor cfg (extends_log s)).
    + intros st pos price why rnd now' H.
      apply (extends_log_trans _ _ _ H). apply extends_log_sell.
    + intros st m price H.
      apply (extends_log_trans _ _ _ H). apply extends_log_peak.
    + apply extends_log_refl.
Qed.

(** ** The exit check closes what it sells *)

Lemma proceeds_nonnegative (cfg : Config) (amount c rnd : Q) :
  0 <= amount -> 0 < c -> RAYDIUM_FEE_PERCENT cfg <= 1 -> rnd <= 1 ->
  0 <= calculateSolForTokens amount c (RAYDIUM_FEE_PERCENT cfg)
         (sellSlippage rnd).
Proof.
  intros Ha Hc Hfee Hrnd. rewrite (sol_unfold _ _ _ _ Hc).
  assert (0 <= 1 - sellSlippage rnd) as Hs by (unfold sellSlippage; lra).
  assert (0 <= 1 - RAYDIUM_FEE_PERCENT cfg) as Hf by lra.
  apply Qmult_le_0_compat; [|exact Hs].
  apply Qmult_le_0_compat; [|exact Hf].
  apply Qmult_le_0_compat; [exact Ha|apply Qlt_le_weak; exact Hc].
Qed.

Lemma sell_goes_through (cfg : Config) (s : Ledger) (p q : Position)
    (price : Q) (why : string) (rnd : Q) (now : Z) :
  find (mint_is (tokenMintAddress p)) (activePositions s) = Some q ->
  0 <= calculateSolForTokens (tokenAmount p) price (RAYDIUM_FEE_PERCENT cfg)
         (sellSlippage rnd) ->
  fst (simulateSell cfg s (Some p) price why rnd now) =
    mkLedger
      (virtualBudget s
       + calculateSolForTokens (tokenAmount p) price
           (RAYDIUM_FEE_PERCENT cfg) (sellSlippage rnd))
      (filter (fun x => negb (mint_is (tokenMintAddress p) x))
              (activePositions s))
      (filter (fun x => negb (mint_is (tokenMintAddress p) x))
              (activePositions s))
      (completedTrades s ++
         [mkCompletedTrade p price
            (calculateSolForTokens (tokenAmount p) price
               (RAYDIUM_FEE_PERCENT cfg) (sellSlippage rnd))
            why now
            (calculateSolForTokens (tokenAmount p) price
               (RAYDIUM_FEE_PERCENT cfg) (sellSlippage rnd)
             - tradeSizeSol p)]).
Proof.
  intros Hf Hnn. unfold simulateSell. rewrite Hf.
  apply Qltb_false in Hnn. rewrite Hnn. reflexivity.
Qed.

Lemma peak_keeps_rest (s : Ledger) (m : string) (price : Q) :
  virtualBudget (updatePeakPrice s m price) = virtualBudget s /\
  completedTrades (updatePeakPrice s m price) = completedTrades s.
Proof.
  destruct (peak_outcome s m price) as [E | [position [_ [_ E]]]]; rewrite E;
    split; reflexivity.
Qed.

Lemma raised_same_fields (price : Q) (p p' : Position) :
  raised price p p' ->
  tokenMintAddress p' = tokenMintAddress p /\
  buyPrice p' = buyPrice p /\
  buyTimestamp p' = buyTimestamp p /\
  tokenAmount p' = tokenAmount p.
Proof. intros [-> | [_ ->]]; repeat split; reflexivity. Qed.

(** The two outcomes of an exit check on an open position with a positive
    price: nothing fires and only the peak may have moved, or one rule fires
    and the re-read position is handed to [simulateSell]. *)
Lemma check_outcome (cfg : Config) (s : Ledger) (position p0 : Position)
    (c rnd : Q) (now : Z) :
  find (mint_is (tokenMintAddress position)) (activePositions s) = Some p0 ->
  0 < c ->
  let s1 := updatePeakPrice s (tokenMintAddress position) c in
  exists pu,
    find (mint_is (tokenMintAddress position)) (activePositions s1) = Some pu
    /\ raised c p0 pu /\
    ((~ time_rule cfg now p0 /\
      checkExitConditions cfg s position (Some c) rnd now
        = mkExitCheck s1 false [])
     \/
     exists why,
       checkExitConditions cfg s position (Some c) rnd now
         = mkExitCheck (fst (simulateSell cfg s1 (Some pu) c why rnd now))
                       true [why]).
Proof.
  intros Hf Hc s1. subst s1.
  destruct (find_after_update s (tokenMintAddress position) c p0 Hf)
    as [pu [Hfu [Hr _]]].
  exists pu. split; [exact Hfu|]. split; [exact Hr|].
  unfold checkExitConditions.
  apply Qle_bool_false in Hc. rewrite Hc.
  unfold getActivePositions. rewrite Hfu.
  destruct (profit_reached _ _ _); [right; eexists; reflexivity|].
  destruct (_ && _); [right; eexists; reflexivity|].
  destruct (Qgeb _ _) eqn:Et; [right; eexists; reflexivity|].
  left. split; [|reflexivity].
  unfold time_rule. intro H. apply Qgeb_true in H.
  destruct (raised_same_fields c p0 pu Hr) as [_ [_ [Hts _]]].
  rewrite Hts in Et. congruence.
Qed.

(** X9: an exit check on an open position with a positive price, a
    non-negative token amount, a fee rate of at most 1 and a random draw of
    at most 1 closes what it sells: if the check reports a sale, no position
    of that mint is open afterwards, exactly one trade has been appended to
    the log, at the current price, and the budget has grown by its
    proceeds; if it reports none, budget and log are as before.  A position
    whose age has reached [TRADE_TIME_LIMIT_MINUTES] is always sold. *)
Theorem exit_check_closes_position (cfg : Config) (s : Ledger)
    (position p0 : Position) (c rnd : Q) (now : Z) :
  find (mint_is (tokenMintAddress position)) (activePositions s) = Some p0 ->
  0 < c ->
  0 <= tokenAmount p0 ->
  RAYDIUM_FEE_PERCENT cfg <= 1 ->
  rnd <= 1 ->
  let r := checkExitConditions cfg s position (Some c) rnd now in
  (TRADE_TIME_LIMIT_MINUTES cfg <= elapsedMinutes now (buyTimestamp p0) ->
   sellTriggered r = true) /\
  (sellTriggered r = true ->
   (forall q, In q (activePositions (ledgerAfter r)) ->
              tokenMintAddress q <> tokenMintAddress position) /\
   exists t,
     completedTrades (ledgerAfter r) = completedTrades s ++ [t] /\
     sellCalls r = [exitReason t] /\
     sellPrice t = c /\
     0 <= solProceeds t /\
     virtualBudget (ledgerAfter r) = virtualBudget s + solProceeds t) /\
  (sellTriggered r = false ->
   virtualBudget (ledgerAfter r) = virtualBudget s /\
   completedTrades (ledgerAfter r) = completedTrades s /\
   sellCalls r = []).
Proof.
  intros Hf Hc Hamt Hfee Hrnd r.
  destruct (check_outcome cfg s position p0 c rnd now Hf Hc)
    as [pu [Hfu [Hr [[Hnt E] | [why E]]]]]; subst r; rewrite E;
    cbn [ledgerAfter sellTriggered sellCalls].
  - split; [intro H; exfalso; exact (Hnt H)|]. split; [discriminate|].
    intros _.
    destruct (peak_keeps_rest s (tokenMintAddress position) c) as [H1 H2].
    split; [exact H1|]. split; [exact H2|reflexivity].
  - split; [reflexivity|]. split; [|discriminate]. intros _.
    destruct (raised_same_fields c p0 pu Hr) as [Hm [_ [_ Ha]]].
    destruct (find_mint_some _ _ _ Hf) as [_ Hm0].
    assert (tokenMintAddress pu = tokenMintAddress position) as Hmu
      by congruence.
    assert (0 <= calculateSolForTokens (tokenAmount pu) c
                   (RAYDIUM_FEE_PERCENT cfg) (sellSlippage rnd)) as Hnn.
    { apply proceeds_nonnegative; try assumption. rewrite Ha. exact Hamt. }
    assert (find (mint_is (tokenMintAddress pu))
                 (activePositions
                    (updatePeakPrice s (tokenMintAddress position) c))
            = Some pu) as Hfu' by (rewrite Hmu; exact Hfu).
    rewrite (sell_goes_through cfg _ pu pu c why rnd now Hfu' Hnn). simpl.
    destruct (peak_keeps_rest s (tokenMintAddress position) c) as [H1 H2].
    split.
    + intros q Hin. apply filter_other_mints in Hin. rewrite <- Hmu.
      exact (proj2 Hin).
    + eexists. rewrite H1, H2. split; [reflexivity|]. simpl.
      split; [reflexivity|]. split; [reflexivity|].
      split; [exact Hnn|reflexivity].
Qed.

(** X10: a flat price sells on the time limit and not before.  For an open
    position whose buy price and stored peak both equal the current positive
    price, with a positive profit target: before
    [TRADE_TIME_LIMIT_MINUTES] have elapsed the check sells nothing and
    leaves the ledger as it was; from then on it calls [simulateSell] once,
    with reason [time_limit]. *)
Theorem flat_price_waits_for_time_limit (cfg : Config) (s : Ledger)
    (position p0 : Position) (c rnd : Q) (now : Z) :
  find (mint_is (tokenMintAddress position)) (activePositions s) = Some p0 ->
  0 < c ->
  buyPrice p0 == c ->
  peakPrice p0 == c ->
  0 < PROFIT_TARGET_PERCENT cfg ->
  let r := checkExitConditions cfg s position (Some c) rnd now in
  (elapsedMinutes now (buyTimestamp p0) < TRADE_TIME_LIMIT_MINUTES cfg ->
   r = mkExitCheck s false []) /\
  (TRADE_TIME_LIMIT_MINUTES cfg <= elapsedMinutes now (buyTimestamp p0) ->
   sellCalls r = ["time_limit"%string] /\ sellTriggered r = true).
Proof.
  intros Hf Hc Hbuy Hpeak Htarget r. subst r.
  assert (updatePeakPrice s (tokenMintAddress position) c = s) as Hs1.
  { unfold updatePeakPrice. rewrite Hf.
    assert (Qgtb c (peakPrice p0) = false) as E
      by (apply Qltb_false; rewrite Hpeak; apply Qle_refl).
    rewrite E. reflexivity. }
  unfold checkExitConditions.
  pose proof Hc as Hc'. apply Qle_bool_false in Hc'. rewrite Hc'.
  rewrite Hs1. unfold getActivePositions. rewrite Hf.
  assert (profit_reached c (buyPrice p0) (PROFIT_TARGET_PERCENT cfg) = false)
    as E1.
  { destruct (profit_reached _ _ _) eqn:E; [|reflexivity].
    apply (profit_reached_iff cfg c p0 Hc) in E. exfalso.
    destruct E as [E | E].
    - rewrite Hbuy in E. rewrite E in Hc. exact (Qlt_irrefl _ Hc).
    - assert ((c - buyPrice p0) / buyPrice p0 == 0) as Hz.
      { assert (c - buyPrice p0 == 0) as H0 by (rewrite Hbuy; ring).
        unfold Qdiv. rewrite H0. ring. }
      rewrite Hz in E. exact (Qlt_not_le _ _ Htarget E). }
  rewrite E1.
  assert (Qgtb (peakPrice p0)
               (buyPrice p0 * (1 + PROFIT_TARGET_PERCENT cfg)) = false) as E2.
  { apply Qltb_false. rewrite Hpeak, Hbuy. nra. }
  rewrite E2. simpl.
  split.
  - intro Hlt. apply Qgeb_false in Hlt. rewrite Hlt. reflexivity.
  - intro Hge. apply Qgeb_true in Hge. rewrite Hge. split; reflexivity.
Qed.

(** ** The qualifier: when a pool is accepted *)

(** X11: the accept verdict, characterised.  [analyzeTokenAndPool] returns
    [suitable = true] exactly when the pool is not older than the ceiling,
    the mints pair wrapped SOL with a present token, the mint lookup for
    that token succeeds with a [null] freeze authority, and the liquidity
    data is either raw data without an amount or an amount of at least
    [MIN_LIQUIDITY_SOL]; the verdict then carries that token and the pool
    id.  A pool older than the ceiling is rejected as too old whatever the
    lookups answer, and a token with a freeze authority is rejected whatever
    the liquidity. *)
Theorem accept_verdict_characterised (cfg : Config) (poolData : PoolData)
    (now : Z) (getMint : string -> option MintInfo)
    (getLiq : string -> option LiquidityData) :
  let v := analyzeTokenAndPool cfg poolData now getMint getLiq in
  (suitable v = true <->
   age_ok cfg now poolData /\
   exists m, pairs_with_native poolData m /\
     (exists mi, getMint m = Some mi /\ freezeAuthority mi = None) /\
     exists d, getLiq (ammId poolData) = Some d /\
       (optimistic d \/
        exists a, solAmount d = Some a /\ MIN_LIQUIDITY_SOL cfg <= a)) /\
  (suitable v = true ->
   reason v = AllChecksPassed /\
   verdictPoolId v = Some (ammId poolData) /\
   exists m, pairs_with_native poolData m /\ tokenMint v = Some m) /\
  (~ age_ok cfg now poolData -> v = reject PoolTooOld) /\
  (forall m mi authority,
     age_ok cfg now poolData -> pairs_with_native poolData m ->
     getMint m = Some mi -> freezeAuthority mi = Some authority ->
     v = reject FreezeAuthorityNotRevoked).
Proof.
  intro v.
  assert (age_ok cfg now poolData \/ ~ age_ok cfg now poolData) as Hage.
  { rewrite <- pool_too_old_false.
    destruct (pool_too_old cfg now (timestamp poolData));
      [right; discriminate|left; reflexivity]. }
  assert (forall m, age_ok cfg now poolData -> pairs_with_native poolData m ->
          (suitable v = true <->
           (exists mi, getMint m = Some mi /\ freezeAuthority mi = None) /\
           exists d, getLiq (ammId poolData) = Some d /\
             (optimistic d \/
              exists a, solAmount d = Some a /\ MIN_LIQUIDITY_SOL cfg <= a))
          /\ (suitable v = true ->
              reason v = AllChecksPassed /\
              verdictPoolId v = Some (ammId poolData) /\
              tokenMint v = Some m)) as Hpast.
  { intros m Ha Hm. subst v.
    rewrite (analyze_after_pairing cfg poolData now getMint getLiq m Ha Hm).
    destruct (getMint m) as [mi|].
    2:{ split; [|discriminate]. split; [discriminate|].
        intros [[mi [E _]] _]. discriminate E. }
    destruct (freezeAuthority mi) as [authority|] eqn:Efa.
    { split; [|discriminate]. split; [discriminate|].
      intros [[mi' [E E']] _]. injection E as <-. congruence. }
    destruct (getLiq (ammId poolData)) as [d|].
    2:{ split; [|discriminate]. split; [discriminate|].
        intros [_ [d [E _]]]. discriminate E. }
    destruct (liquidityCheck_cases cfg d)
      as [[Ho E] | [Hno [[Hs E] | [[a [Hs [Hlt E]]] | [a [Hs [Hge E]]]]]]];
      rewrite E; simpl.
    - split; [|intros _; repeat split; reflexivity].
      split; [|reflexivity]. intros _.
      split; [exists mi; split; [reflexivity|exact Efa]|].
      exists d. split; [reflexivity|left; exact Ho].
    - split; [|discriminate]. split; [discriminate|].
      intros [_ [d' [E' [Ho | [a [Ha' _]]]]]]; injection E' as <-;
        [contradiction|congruence].
    - split; [|discriminate]. split; [discriminate|].
      intros [_ [d' [E' [Ho | [a' [Ha' Hge]]]]]]; injection E' as <-;
        [contradiction|].
      assert (a' = a) as -> by congruence.
      exfalso. exact (Qlt_not_le _ _ Hlt Hge).
    - split; [|intros _; repeat split; reflexivity].
      split; [|reflexivity]. intros _.
      split; [exists mi; split; [reflexivity|exact Efa]|].
      exists d. split; [reflexivity|]. right. exists a. split; assumption. }
  assert ((forall m, ~ pairs_with_native poolData m) -> suitable v = false)
    as Hnone.
  { intro Hno. destruct Hage as [Ha | Ha].
    - apply (analyze_rejected_by_pairing cfg poolData now getMint getLiq Ha Hno).
    - subst v. rewrite (analyze_too_old _ _ _ _ _ Ha). reflexivity. }
  assert (suitable v = true ->
          age_ok cfg now poolData /\ exists m, pairs_with_native poolData m)
    as Hgate.
  { intro Hs. split.
    - destruct Hage as [Ha | Ha]; [exact Ha|].
      subst v. rewrite (analyze_too_old _ _ _ _ _ Ha) in Hs. discriminate Hs.
    - destruct (pairing_outcome poolData) as [Hm | [Hno _]]; [exact Hm|].
      rewrite (Hnone Hno) in Hs. discriminate Hs. }
  split; [|split; [|split]].
  - split.
    + intro Hs. destruct (Hgate Hs) as [Ha [m Hm]].
      split; [exact Ha|]. exists m. split; [exact Hm|].
      exact (proj1 (proj1 (Hpast m Ha Hm)) Hs).
    + intros [Ha [m [Hm Hrest]]]. exact (proj2 (proj1 (Hpast m Ha Hm)) Hrest).
  - intro Hs. destruct (Hgate Hs) as [Ha [m Hm]].
    destruct (proj2 (Hpast m Ha Hm) Hs) as [H1 [H2 H3]].
    split; [exact H1|]. split; [exact H2|]. exists m. split; assumption.
  - intro Ha. subst v. apply analyze_too_old. exact Ha.
  - intros m mi authority Ha Hm Hmint Hfa. subst v.
    rewrite (analyze_after_pairing cfg poolData now getMint getLiq m Ha Hm).
    rewrite Hmint, Hfa. reflexivity.
Qed.

(** ** The qualifier wired to the placeholder lookups *)

Lemma placeholder_liquidity (cfg : Config) (lookup : AccountLookup) :
  match getPoolLiquidity lookup with
  | None => lookup = LookupThrows \/ lookup = AccountMissing
  | Some d =>
    exists base64, lookup = AccountFound base64 /\
      ((base64 <> ""%string /\ liquidityCheck cfg d = None) \/
       (base64 = ""%string /\
        liquidityCheck cfg d = Some UnexpectedLiquidityFormat))
  end.
Proof.
  destruct lookup as [| |base64]; simpl; [left; reflexivity|right; reflexivity|].
  exists base64. split; [reflexivity|].
  unfold liquidityCheck. simpl.
  destruct (String.eqb base64 "") eqn:E; simpl.
  - right. apply String.eqb_eq in E. split; [exact E|reflexivity].
  - left. apply String.eqb_neq in E. split; [exact E|reflexivity].
Qed.

(** X12: with the liquidity lookup that the repository ships,
    [MIN_LIQUIDITY_SOL] decides nothing.  When [analyzeTokenAndPool] is
    given [getPoolLiquidity] as it is written (raw account data, never an
    amount), two configurations with the same age ceiling return the same
    verdict whatever their minimum liquidity, no pool is ever rejected for
    insufficient liquidity, and a pool that passes the age, pairing and
    freeze-authority checks is accepted exactly when its account exists with
    non-empty data. *)
Theorem minimum_liquidity_is_not_enforced (cfg cfg' : Config)
    (poolData : PoolData) (now : Z) (getMint : string -> option MintInfo)
    (lookup : string -> AccountLookup) :
  MAX_POOL_AGE_MINUTES cfg = MAX_POOL_AGE_MINUTES cfg' ->
  let liquidity := fun account => getPoolLiquidity (lookup account) in
  let v := analyzeTokenAndPool cfg poolData now getMint liquidity in
  v = analyzeTokenAndPool cfg' poolData now getMint liquidity /\
  reason v <> InsufficientLiquidity /\
  (forall m, age_ok cfg now poolData -> pairs_with_native poolData m ->
     getMint m = Some (mkMintInfo None) ->
     (suitable v = true <->
      exists base64, lookup (ammId poolData) = AccountFound base64 /\
                     base64 <> ""%string)).
Proof.
  intros Hage liquidity v.
  assert (forall c,
    analyzeTokenAndPool c poolData now getMint liquidity =
    if pool_too_old c now (timestamp poolData) then reject PoolTooOld
    else
      let (solMint, newTokenMint) := identifyMints poolData in
      if negb (truthy_string solMint) || negb (truthy_string newTokenMint)
      then reject NotDirectSolPair
      else if is_wrapped_sol newTokenMint then reject NewTokenIsSol
      else
        match newTokenMint with
        | None => reject NotDirectSolPair
        | Some newToken =>
          match getMint newToken with
          | None => reject MintInfoUnavailable
          | Some mintInfo =>
            match freezeAuthority mintInfo with
            | Some _ => reject FreezeAuthorityNotRevoked
            | None =>
              match lookup (ammId poolData) with
              | LookupThrows => reject LiquidityUnavailable
              | AccountMissing => reject LiquidityUnavailable
              | AccountFound base64 =>
                if String.eqb base64 ""
                then reject UnexpectedLiquidityFormat
                else mkVerdict true AllChecksPassed (Some newToken)
                               (Some (ammId poolData))
              end
            end
          end
        end) as Hshape.
  { intro c. unfold analyzeTokenAndPool.
    destruct (pool_too_old c now (timestamp poolData)); [reflexivity|].
    destruct (identifyMints poolData) as [solMint newTokenMint].
    destruct (negb (truthy_string solMint)
              || negb (truthy_string newTokenMint)); [reflexivity|].
    destruct (is_wrapped_sol newTokenMint); [reflexivity|].
    destruct newTokenMint as [newToken|]; [|reflexivity].
    destruct (getMint newToken) as [mi|]; [|reflexivity].
    destruct (freezeAuthority mi); [reflexivity|].
    subst liquidity. cbv beta.
    destruct (lookup (ammId poolData)) as [| |base64]; simpl;
      [reflexivity|reflexivity|].
    unfold liquidityCheck. simpl.
    destruct (String.eqb base64 ""); reflexivity. }
  assert (pool_too_old cfg now (timestamp poolData) =
          pool_too_old cfg' now (timestamp poolData)) as Hold.
  { unfold pool_too_old. rewrite Hage. reflexivity. }
  split; [|split].
  - subst v. rewrite (Hshape cfg), (Hshape cfg'). rewrite Hold. reflexivity.
  - subst v. rewrite (Hshape cfg).
    destruct (pool_too_old cfg now (timestamp poolData)); [discriminate|].
    destruct (identifyMints poolData) as [solMint newTokenMint].
    destruct (negb (truthy_string solMint)
              || negb (truthy_string newTokenMint)); [discriminate|].
    destruct (is_wrapped_sol newTokenMint); [discriminate|].
    destruct newTokenMint as [newToken|]; [|discriminate].
    destruct (getMint newToken) as [mi|]; [|discriminate].
    destruct (freezeAuthority mi); [discriminate|].
    destruct (lookup (ammId poolData)) as [| |base64];
      [discriminate|discriminate|].
    destruct (String.eqb base64 ""); discriminate.
  - intros m Ha Hm Hmint. subst v.
    rewrite (analyze_after_pairing cfg poolData now getMint liquidity m Ha Hm).
    rewrite Hmint. simpl. subst liquidity. cbv beta.
    pose proof (placeholder_liquidity cfg (lookup (ammId poolData))) as Hp.
    destruct (getPoolLiquidity (lookup (ammId poolData))) as [d|].
    + destruct Hp as [base64 [El [[Hne E] | [He E]]]]; rewrite E; simpl.
      * split; [intros _; exists base64; split; assumption|reflexivity].
      * split; [discriminate|].
        intros [b [Eb Hb]]. rewrite El in Eb. injection Eb as <-.
        contradiction.
    + simpl. split; [discriminate|].
      intros [b [Eb _]]. destruct Hp as [Hp | Hp]; congruence.
Qed.

(** ** The pool handler *)

(** X13: what [handleNewPool] can do to the ledger.  It leaves the ledger
    as it was unless the verdict is an accept and the price answered for the
    verdict's pool is positive; in that case its effect is exactly that of
    [simulateBuy] for the verdict's token at that price.  Either way the
    log is untouched, at most one position is added, and the bounds on
    budget and position count are kept. *)
Theorem handleNewPool_effect (cfg : Config) (s : Ledger)
    (poolData : PoolData) (now : Z) (getMint : string -> option MintInfo)
    (getLiq : string -> option LiquidityData)
    (getPrice : string -> option Q) (rnd : Q) (buyTime : Z) :
  let v := analyzeTokenAndPool cfg poolData now getMint getLiq in
  let s' := handleNewPool cfg s poolData now getMint getLiq getPrice rnd
                          buyTime in
  (s' = s \/
   exists token c,
     suitable v = true /\ tokenMint v = Some token /\
     getPrice (ammId poolData) = Some c /\ 0 < c /\
     s' = step cfg s (OpBuy token (ammId poolData) c rnd buyTime)) /\
  (suitable v = false -> s' = s) /\
  (getPrice (ammId poolData) = None -> s' = s) /\
  completedTrades s' = completedTrades s /\
  (List.length (activePositions s') <= S (List.length (activePositions s)))%nat
  /\
  (0 <= virtualBudget s /\
   (List.length (activePositions s) <= MAX_CONCURRENT_POSITIONS cfg)%nat ->
   0 <= virtualBudget s' /\
   (List.length (activePositions s') <= MAX_CONCURRENT_POSITIONS cfg)%nat).
Proof.
  intros v s'.
  assert (s' = s \/
          exists token c,
            suitable v = true /\ tokenMint v = Some token /\
            getPrice (ammId poolData) = Some c /\ 0 < c /\
            s' = step cfg s (OpBuy token (ammId poolData) c rnd buyTime))
    as Hcases.
  { subst s'. unfold handleNewPool. fold v.
    destruct (suitable v) eqn:Es; [|left; reflexivity].
    assert (verdictPoolId v = Some (ammId poolData) /\
            exists token, tokenMint v = Some token) as [Hpool [token Htok]].
    { subst v. revert Es. unfold analyzeTokenAndPool.
      destruct (pool_too_old _ _ _); [discriminate|].
      destruct (identifyMints poolData) as [solMint newTokenMint].
      destruct (_ || _); [discriminate|].
      destruct (is_wrapped_sol newTokenMint); [discriminate|].
      destruct newTokenMint as [newToken|]; [|discriminate].
      destruct (getMint newToken) as [mi|]; [|discriminate].
      destruct (freezeAuthority mi); [discriminate|].
      destruct (getLiq (ammId poolData)) as [d|]; [|discriminate].
      destruct (liquidityCheck cfg d); [discriminate|].
      intros _. simpl. split; [reflexivity|exists newToken; reflexivity]. }
    rewrite Htok, Hpool.
    destruct (getPrice (ammId poolData)) as [c|] eqn:Ep; [|left; reflexivity].
    destruct (Qgtb c 0) eqn:Ec; [|left; reflexivity].
    right. exists token, c. split; [reflexivity|]. split; [reflexivity|].
    split; [reflexivity|]. split; [apply Qgtb_true; exact Ec|reflexivity]. }
  split; [exact Hcases|]. split; [|split; [|split; [|split]]].
  - intro Hs. destruct Hcases as [E | [token [c [Hs' _]]]]; [exact E|].
    congruence.
  - intro Hp. destruct Hcases as [E | [token [c [_ [_ [Hp' _]]]]]]; [exact E|].
    congruence.
  - destruct Hcases as [-> | [token [c [_ [_ [_ [_ ->]]]]]]]; [reflexivity|].
    simpl.
    destruct (buy_outcome cfg s token (ammId poolData) c rnd buyTime)
      as [E | [pos E]]; [rewrite E; reflexivity|].
    destruct (simulateBuy_success _ _ _ _ _ _ _ _ _ E) as [_ [_ [_ Hs']]].
    rewrite Hs'. reflexivity.
  - destruct Hcases as [-> | [token [c [_ [_ [_ [_ ->]]]]]]]; [lia|].
    simpl.
    destruct (buy_outcome cfg s token (ammId poolData) c rnd buyTime)
      as [E | [pos E]]; [rewrite E; lia|].
    destruct (simulateBuy_success _ _ _ _ _ _ _ _ _ E) as [_ [_ [_ Hs']]].
    rewrite Hs'. simpl. rewrite length_app. simpl. lia.
  - intro Hlim.
    destruct Hcases as [-> | [token [c [_ [_ [_ [_ ->]]]]]]]; [exact Hlim|].
    simpl. apply within_limits_buy. exact Hlim.
Qed.

(** X14: with the price lookup that the repository ships, nothing is ever
    traded.  [getCurrentPrice] as it is written answers [null] whatever the
    account lookup gives; wired to it, [handleNewPool] leaves the ledger as
    it was for every pool event and every verdict, and a sweep of
    [monitorTrades] leaves the ledger as it was for every set of open
    positions. *)
Theorem placeholder_price_never_trades (cfg : Config) (s : Ledger)
    (poolData : PoolData) (now : Z) (getMint : string -> option MintInfo)
    (getLiq : string -> option LiquidityData)
    (lookup : string -> AccountLookup) (rnd : Q) (buyTime : Z)
    (random : string -> Q) :
  let price := fun pool => getCurrentPrice (lookup pool) in
  handleNewPool cfg s poolData now getMint getLiq price rnd buyTime = s /\
  monitorTrades cfg s price random now = s.
Proof.
  intro price.
  assert (forall pool, price pool = None) as Hnull.
  { intro pool. subst price. cbv beta. unfold getCurrentPrice.
    destruct (getPoolLiquidity (lookup pool)) as [d|]; [|reflexivity].
    destruct (truthy_number (solAmount d)); reflexivity. }
  split.
  - unfold handleNewPool.
    destruct (suitable _); [|reflexivity].
    destruct (tokenMint _); [|reflexivity].
    destruct (verdictPoolId _) as [pool|]; [|reflexivity].
    rewrite (Hnull pool). reflexivity.
  - unfold monitorTrades, getActivePositions.
    generalize (activePositions s) as snapshot.
    induction snapshot as [|p rest IH]; simpl; [reflexivity|].
    rewrite (Hnull (poolId p)). simpl. exact IH.
Qed.

(** ** The pool detector *)















(** ** The investment allocation *)






(** ** What a round trip costs *)

Lemma buy_needs_positive_price (cfg : Config) (s s' : Ledger)
    (m pool : string) (price rnd : Q) (now : Z) (pos : Position) :
  simulateBuy cfg s m pool price rnd now = (s', Some pos) ->
  0 < price /\
  0 < tokenAmount pos /\
  tokenAmount pos =
    TRADE_SIZE_SOL cfg * (1 - RAYDIUM_FEE_PERCENT cfg) / price
    * (1 - buySlippage rnd) /\
  buyPrice pos = price /\
  tradeSizeSol pos = TRADE_SIZE_SOL cfg.
Proof.
  intro H.
  destruct (simulateBuy_success _ _ _ _ _ _ _ _ _ H) as [_ [Hp [Hpos _]]].
  assert (0 < price) as Hprice.
  { destruct (Qlt_le_dec 0 price) as [Hlt | Hle]; [exact Hlt|].
    exfalso. rewrite Hp in Hpos. simpl in Hpos.
    rewrite (tokens_nonpositive_price _ _ _ _ Hle) in Hpos.
    exact (Qlt_irrefl _ Hpos). }
  split; [exact Hprice|]. split; [exact Hpos|].
  rewrite Hp. simpl. split; [apply tokens_unfold; exact Hprice|].
  split; reflexivity.
Qed.


(** ** What the ledger opens *)

Lemma opened_carried (cfg : Config) (l l' : list Position) :
  carried l l' -> Forall (opened_by_ledger cfg) l ->
  Forall (opened_by_ledger cfg) l'.
Proof.
  intros Hc Hl. apply Forall_forall. intros p' Hin.
  destruct (Hc p' Hin) as [p [Hinp [E _]]].
  rewrite Forall_forall in Hl. specialize (Hl p Hinp).
  unfold opened_by_ledger in *. rewrite E. simpl. exact Hl.
Qed.

(** X21: what the ledger opens.  Every position that is open in a state
    reached from a freshly loaded module was bought at a positive price,
    holds a positive token amount and cost exactly [TRADE_SIZE_SOL]; in
    particular the profit ratio of the exit check never divides by zero for
    these positions, and [simulateBuy] at a price that is not positive
    opens nothing. *)
Theorem ledger_positions_are_well_formed (cfg : Config)
    (file : list Position) (ops : list Op) :
  (forall p, In p (activePositions (run cfg (module_load cfg file) ops)) ->
     0 < buyPrice p /\ 0 < tokenAmount p /\
     tradeSizeSol p = TRADE_SIZE_SOL cfg) /\
  (forall s m pool price rnd now,
     price <= 0 -> simulateBuy cfg s m pool price rnd now = (s, None)).
Proof.
  split.
  - assert (Forall (opened_by_ledger cfg)
              (activePositions (run cfg (module_load cfg file) ops))) as H.
    { apply (preserved_by_run cfg
               (fun st => Forall (opened_by_ledger cfg) (activePositions st))).
      - intros st m pool price rnd now Hst.
        destruct (buy_outcome cfg st m pool price rnd now) as [E | [pos E]];
          [rewrite E; exact Hst|].
        destruct (buy_needs_positive_price _ _ _ _ _ _ _ _ _ E)
          as [Hprice [Hamt [_ [Hbuy Hcost]]]].
        destruct (simulateBuy_success _ _ _ _ _ _ _ _ _ E) as [_ [_ [_ Hs']]].
        rewrite Hs'. simpl. apply Forall_app. split; [exact Hst|].
        constructor; [|constructor]. unfold opened_by_ledger.
        rewrite Hbuy. split; [exact Hprice|]. split; assumption.
      - intros st pos price why rnd now Hst.
        apply (opened_carried cfg (activePositions st));
          [apply sell_carried|exact Hst].
      - intros st m price Hst.
        apply (opened_carried cfg (activePositions st));
          [apply peak_carried|exact Hst].
      - simpl. constructor. }
    intros p Hin. rewrite Forall_forall in H. exact (H p Hin).
  - intros s m pool price rnd now Hprice. unfold simulateBuy.
    destruct (negb (canBuy cfg s m)); [reflexivity|].
    rewrite (tokens_nonpositive_price _ _ _ _ Hprice). reflexivity.
Qed.

(** ** Worked instances of the further properties *)

Lemma mints_stay_unique_witness :
  NoDup (map tokenMintAddress [restored_position]) /\
  NoDup (map tokenMintAddress
           (activePositions
              (run default_config restarted
                 [OpBuy "MINT" "POOL" 1 (1 # 2) 0;
                  OpBuy "MINT" "POOL" 2 (1 # 2) 5;
                  OpBuy "OLD" "OLDPOOL" 2 (1 # 2) 6]))).
Proof.
  assert (NoDup (map tokenMintAddress [restored_position])) as Hfile.
  { constructor; [intros []|constructor]. }
  split; [exact Hfile|].
  exact (mints_stay_unique default_config [restored_position]
           [OpBuy "MINT" "POOL" 1 (1 # 2) 0;
            OpBuy "MINT" "POOL" 2 (1 # 2) 5;
            OpBuy "OLD" "OLDPOOL" 2 (1 # 2) 6] Hfile).
Defined.

Lemma no_double_sell_witness :
  simulateSell default_config bought_at_one (Some first_position) 2
               "profit_target" (1 # 2) 60000
    = (sold_at_two,
       Some (calculateSolForTokens (tokenAmount first_position) 2
               (25 # 10000) (sellSlippage (1 # 2)),
             first_position)) /\
  simulateSell default_config sold_at_two (Some first_position) 3
               "time_limit" (1 # 4) 70000
    = (sold_at_two, None).
Proof.
  assert (simulateSell default_config bought_at_one (Some first_position) 2
                       "profit_target" (1 # 2) 60000
          = (sold_at_two,
             Some (calculateSolForTokens (tokenAmount first_position) 2
                     (25 # 10000) (sellSlippage (1 # 2)),
                   first_position))) as Hsell by reflexivity.
  split; [exact Hsell|].
  exact (proj2 (no_double_sell default_config bought_at_one sold_at_two
                  first_position 2 "profit_target" (1 # 2) 60000 _ Hsell)
           3 "time_limit"%string (1 # 4) 70000%Z).
Defined.

Lemma peak_is_running_maximum_witness :
  find (mint_is "MINT") (activePositions bought_at_one)
    = Some first_position /\
  exists pu,
    find (mint_is "MINT")
         (activePositions
            (fold_left (fun st c => updatePeakPrice st "MINT" c)
                       [2; 3; 1] bought_at_one))
      = Some pu /\
    Forall (fun c => c <= peakPrice pu) [2; 3; 1].
Proof.
  assert (find (mint_is "MINT") (activePositions bought_at_one)
          = Some first_position) as Hf by reflexivity.
  split; [exact Hf|].
  destruct (peak_is_running_maximum bought_at_one "MINT" [2; 3; 1]
              first_position Hf) as [pu [H1 [_ [_ [H2 _]]]]].
  exists pu. split; [exact H1|exact H2].
Defined.

Lemma sweep_without_prices_witness :
  (forall p, In p (activePositions bought_at_one) ->
     (fun _ : string => @None Q) (poolId p) = None \/
     exists c, (fun _ : string => @None Q) (poolId p) = Some c /\ c <= 0) /\
  monitorTrades default_config bought_at_one (fun _ => None)
                (fun _ => 1 # 2) 60000 = bought_at_one.
Proof.
  assert (forall p, In p (activePositions bought_at_one) ->
            (fun _ : string => @None Q) (poolId p) = None \/
            exists c, (fun _ : string => @None Q) (poolId p) = Some c /\
                      c <= 0) as Hfeed.
  { intros p _. left. reflexivity. }
  split; [exact Hfeed|].
  exact (sweep_without_prices default_config bought_at_one (fun _ => None)
           (fun _ => 1 # 2) 60000 Hfeed).
Defined.

Lemma exit_check_closes_position_witness :
  find (mint_is (tokenMintAddress restored_position))
       (activePositions restarted) = Some restored_position /\
  0 < (11 # 10) /\
  0 <= tokenAmount restored_position /\
  RAYDIUM_FEE_PERCENT default_config <= 1 /\
  (1 # 2) <= 1 /\
  sellTriggered (checkExitConditions default_config restarted
                   restored_position (Some (11 # 10)) (1 # 2) 60000)
    = true /\
  (forall q,
     In q (activePositions
             (ledgerAfter (checkExitConditions default_config restarted
                             restored_position (Some (11 # 10)) (1 # 2)
                             60000))) ->
     tokenMintAddress q <> tokenMintAddress restored_position).
Proof.
  assert (find (mint_is (tokenMintAddress restored_position))
               (activePositions restarted) = Some restored_position) as Hf
    by reflexivity.
  assert (0 < (11 # 10)) as Hc by reflexivity.
  assert (0 <= tokenAmount restored_position) as Ha by discriminate.
  assert (RAYDIUM_FEE_PERCENT default_config <= 1) as Hfee by discriminate.
  assert ((1 # 2) <= 1) as Hr by discriminate.
  assert (sellTriggered (checkExitConditions default_config restarted
                           restored_position (Some (11 # 10)) (1 # 2) 60000)
          = true) as Hsold by reflexivity.
  split; [exact Hf|]. split; [exact Hc|]. split; [exact Ha|].
  split; [exact Hfee|]. split; [exact Hr|]. split; [exact Hsold|].
  exact (proj1 (proj1 (proj2
           (exit_check_closes_position default_config restarted
              restored_position restored_position (11 # 10) (1 # 2) 60000
              Hf Hc Ha Hfee Hr)) Hsold)).
Defined.

Lemma flat_price_waits_for_time_limit_witness :
  find (mint_is (tokenMintAddress first_position))
       (activePositions bought_at_one) = Some first_position /\
  0 < 1 /\ buyPrice first_position == 1 /\ peakPrice first_position == 1 /\
  0 < PROFIT_TARGET_PERCENT default_config /\
  elapsedMinutes 60000 (buyTimestamp first_position)
    < TRADE_TIME_LIMIT_MINUTES default_config /\
  checkExitConditions default_config bought_at_one first_position (Some 1)
                      (1 # 2) 60000
    = mkExitCheck bought_at_one false [] /\
  TRADE_TIME_LIMIT_MINUTES default_config
    <= elapsedMinutes 3600000 (buyTimestamp first_position) /\
  sellCalls (checkExitConditions default_config bought_at_one first_position
               (Some 1) (1 # 2) 3600000) = ["time_limit"%string].
Proof.
  assert (find (mint_is (tokenMintAddress first_position))
               (activePositions bought_at_one) = Some first_position) as Hf
    by reflexivity.
  assert (0 < 1) as Hc by reflexivity.
  assert (buyPrice first_position == 1) as Hb by reflexivity.
  assert (peakPrice first_position == 1) as Hp by reflexivity.
  assert (0 < PROFIT_TARGET_PERCENT default_config) as Ht by reflexivity.
  assert (elapsedMinutes 60000 (buyTimestamp first_position)
          < TRADE_TIME_LIMIT_MINUTES default_config) as Hearly by reflexivity.
  assert (TRADE_TIME_LIMIT_MINUTES default_config
          <= elapsedMinutes 3600000 (buyTimestamp first_position)) as Hlate
    by discriminate.
  split; [exact Hf|]. split; [exact Hc|]. split; [exact Hb|].
  split; [exact Hp|]. split; [exact Ht|]. split; [exact Hearly|].
  split.
  - exact (proj1 (flat_price_waits_for_time_limit default_config
                    bought_at_one first_position first_position 1 (1 # 2)
                    60000 Hf Hc Hb Hp Ht) Hearly).
  - split; [exact Hlate|].
    exact (proj1 (proj2 (flat_price_waits_for_time_limit default_config
                    bought_at_one first_position first_position 1 (1 # 2)
                    3600000 Hf Hc Hb Hp Ht) Hlate)).
Defined.

Lemma minimum_liquidity_is_not_enforced_witness :
  MAX_POOL_AGE_MINUTES default_config
    = MAX_POOL_AGE_MINUTES demanding_config /\
  analyzeTokenAndPool default_config fresh_sol_pool 60000
    (fun _ => Some (mkMintInfo None))
    (fun account => getPoolLiquidity (AccountFound "AAAA"))
  = analyzeTokenAndPool demanding_config fresh_sol_pool 60000
      (fun _ => Some (mkMintInfo None))
      (fun account => getPoolLiquidity (AccountFound "AAAA")) /\
  suitable (analyzeTokenAndPool demanding_config fresh_sol_pool 60000
              (fun _ => Some (mkMintInfo None))
              (fun account => getPoolLiquidity (AccountFound "AAAA")))
    = true.
Proof.
  assert (MAX_POOL_AGE_MINUTES default_config
          = MAX_POOL_AGE_MINUTES demanding_config) as Hage by reflexivity.
  split; [exact Hage|]. split; [|reflexivity].
  exact (proj1 (minimum_liquidity_is_not_enforced default_config
                  demanding_config fresh_sol_pool 60000
                  (fun _ => Some (mkMintInfo None))
                  (fun _ => AccountFound "AAAA") Hage)).
Defined.






(** ** The portfolio *)

Lemma map_get_set_same (key : string) (value : Holding)
    (entries : list (string * Holding)) :
  map_get key (map_set key value entries) = Some value.
Proof.
  induction entries as [|[k v] rest IH]; simpl.
  - rewrite String.eqb_refl. reflexivity.
  - destruct (String.eqb k key) eqn:E; simpl; rewrite E;
      [reflexivity|exact IH].
Qed.

Lemma map_get_set_other (key other : string) (value : Holding)
    (entries : list (string * Holding)) :
  other <> key ->
  map_get other (map_set key value entries) = map_get other entries.
Proof.
  intro Hne. induction entries as [|[k v] rest IH]; simpl.
  - assert (String.eqb key other = false) as E
      by (apply String.eqb_neq; congruence).
    rewrite E. reflexivity.
  - destruct (String.eqb k key) eqn:E; simpl.
    + apply String.eqb_eq in E. subst k.
      assert (String.eqb key other = false) as E'
        by (apply String.eqb_neq; congruence).
      rewrite E'. reflexivity.
    + destruct (String.eqb k other); [reflexivity|exact IH].
Qed.

Lemma map_get_delete_same (key : string) (entries : list (string * Holding)) :
  map_get key (map_delete key entries) = None.
Proof.
  induction entries as [|[k v] rest IH]; simpl; [reflexivity|].
  destruct (String.eqb k key) eqn:E; simpl; [exact IH|].
  rewrite E. exact IH.
Qed.

Lemma map_get_delete_other (key other : string)
    (entries : list (string * Holding)) :
  other <> key ->
  map_get other (map_delete key entries) = map_get other entries.
Proof.
  intro Hne. induction entries as [|[k v] rest IH]; simpl; [reflexivity|].
  destruct (String.eqb k key) eqn:E; simpl.
  - apply String.eqb_eq in E. subst k.
    assert (String.eqb key other = false) as E'
      by (apply String.eqb_neq; congruence).
    rewrite E'. exact IH.
  - destruct (String.eqb k other); [reflexivity|exact IH].
Qed.


Lemma map_get_none (key : string) (entries : list (string * Holding)) :
  map_get key entries = None -> ~ In key (map fst entries).
Proof.
  induction entries as [|[k v] rest IH]; simpl; [intros _ []|].
  destruct (String.eqb k key) eqn:E; [discriminate|].
  intros H [Hk | Hin].
  - apply String.eqb_neq in E. contradiction.
  - exact (IH H Hin).
Qed.










(** X24: selling from the portfolio.  For an amount change that is not
    positive, [updatePosition] on an address without position returns
    [null] and changes nothing; on a stored position it removes the
    position and returns [null] when the remaining amount is at most
    0.000001 (a sale of more than is held included), and otherwise stores
    and returns the position with the reduced amount and the same average
    and USD invested.  Positions at other addresses, the balance and the
    history are untouched. *)
Theorem selling_from_portfolio (p : Portfolio) (address : string)
    (change price sol usd : Q) :
  change <= 0 ->
  let result := updatePosition p address change price sol usd in
  (getPosition p address = None -> result = (p, None)) /\
  (forall h, getPosition p address = Some h ->
     (amountHeld h + change <= (1 # 1000000) ->
      snd result = None /\ getPosition (fst result) address = None) /\
     ((1 # 1000000) < amountHeld h + change ->
      exists h',
        snd result = Some h' /\
        getPosition (fst result) address = Some h' /\
        amountHeld h' = amountHeld h + change /\
        averageBuyPriceUSD h' = averageBuyPriceUSD h /\
        initialInvestmentUSD h' = initialInvestmentUSD h)) /\
  (forall other, other <> address ->
     getPosition (fst result) other = getPosition p other) /\
  currentSOLBalance (fst result) = currentSOLBalance p /\
  simulatedTradeHistory (fst result) = simulatedTradeHistory p.
Proof.
  intros Hchange result. subst result.
  unfold getPosition, updatePosition.
  assert (Qle_bool change 0 = true) as Ele by (apply Qle_bool_true; exact Hchange).
  assert (Qgtb change 0 = false) as Egt by (apply Qltb_false; exact Hchange).
  destruct (map_get address (positions p)) as [h0|] eqn:Eg.
  - rewrite Egt.
    destruct (Qle_bool (amountHeld h0 + change) (1 # 1000000)) eqn:Et;
      cbn [fst snd positions currentSOLBalance simulatedTradeHistory].
    + split; [discriminate|]. split; [|split; [|split; reflexivity]].
      * intros h Hh. injection Hh as <-. split.
        -- intros _. split; [reflexivity|apply map_get_delete_same].
        -- intro Hgt. apply Qle_bool_true in Et.
           exfalso. exact (Qlt_not_le _ _ Hgt Et).
      * intros other Hne. apply map_get_delete_other. exact Hne.
    + rewrite map_get_set_same.
      split; [discriminate|]. split; [|split; [|split; reflexivity]].
      * intros h Hh. injection Hh as <-. split.
        -- intro Hle. apply Qle_bool_false in Et.
           exfalso. exact (Qlt_not_le _ _ Et Hle).
        -- intros _. eexists. split; [reflexivity|]. split; [reflexivity|].
           repeat split; reflexivity.
      * intros other Hne. apply map_get_set_other. exact Hne.
  - rewrite Ele. simpl.
    split; [reflexivity|]. split; [discriminate|].
    split; [reflexivity|]. split; reflexivity.
Qed.


Lemma selling_from_portfolio_witness :
  -(10) <= 0 /\
  updatePosition initial_portfolio "TOKEN_A" (-(10)) 6 (-(5)) (-(30))
    = (initial_portfolio, None) /\
  getPosition
    (fst (updatePosition
            (fst (updatePosition initial_portfolio "TOKEN_A" 10 5 10 50))
            "TOKEN_A" (-(10)) 6 (-(5)) (-(30))))
    "TOKEN_A" = None.
Proof.
  assert (-(10) <= 0) as Hc by discriminate.
  split; [exact Hc|]. split.
  - exact (proj1 (selling_from_portfolio initial_portfolio "TOKEN_A"
                    (-(10)) 6 (-(5)) (-(30)) Hc) eq_refl).
  - refine (proj2 (proj1 (proj1 (proj2
              (selling_from_portfolio
                 (fst (updatePosition initial_portfolio "TOKEN_A" 10 5 10
                                      50))
                 "TOKEN_A" (-(10)) 6 (-(5)) (-(30)) Hc))
              (mkHolding "TOKEN_A" 10 (Some 5) 50) eq_refl) _)).
    discriminate.
Defined.

Lemma sweep_only_sells_witness :
  virtualBudget bought_at_one
    <= virtualBudget (monitorTrades default_config bought_at_one
                        (fun _ => Some (11 # 10)) (fun _ => 1 # 2) 60000) /\
  In (set_peak first_position (11 # 10))
     (activePositions (monitorTrades default_config bought_at_one
                         (fun _ => Some (11 # 10)) (fun _ => 1 # 2) 60000))
  /\
  exists p, In p (activePositions bought_at_one) /\
            set_peak first_position (11 # 10)
              = set_peak p (peakPrice (set_peak first_position (11 # 10)))
            /\
            peakPrice p <= peakPrice (set_peak first_position (11 # 10)).
Proof.
  assert (In (set_peak first_position (11 # 10))
             (activePositions (monitorTrades default_config bought_at_one
                                 (fun _ => Some (11 # 10)) (fun _ => 1 # 2)
                                 60000))) as Hafter
    by (vm_compute; left; reflexivity).
  destruct (sweep_only_sells default_config bought_at_one
              (fun _ => Some (11 # 10)) (fun _ => 1 # 2) 60000)
    as [Hb [_ [Hcarried _]]].
  split; [exact Hb|]. split; [exact Hafter|].
  exact (Hcarried _ Hafter).
Defined.

Lemma accept_verdict_characterised_witness :
  suitable (analyzeTokenAndPool default_config fresh_sol_pool 60000
              (fun _ => Some (mkMintInfo None))
              (fun _ => Some (mkLiquidityData None (Some 100)))) = true /\
  age_ok default_config 60000 fresh_sol_pool /\
  exists m, pairs_with_native fresh_sol_pool m /\
    (exists mi, (fun _ : string => Some (mkMintInfo None)) m = Some mi /\
                freezeAuthority mi = None) /\
    exists d,
      (fun _ : string => Some (mkLiquidityData None (Some 100)))
        (ammId fresh_sol_pool) = Some d /\
      (optimistic d \/
       exists a, solAmount d = Some a /\
                 MIN_LIQUIDITY_SOL default_config <= a).
Proof.
  assert (suitable (analyzeTokenAndPool default_config fresh_sol_pool 60000
                      (fun _ => Some (mkMintInfo None))
                      (fun _ => Some (mkLiquidityData None (Some 100))))
          = true) as Hs by reflexivity.
  split; [exact Hs|].
  exact (proj1 (proj1 (accept_verdict_characterised default_config
                         fresh_sol_pool 60000
                         (fun _ => Some (mkMintInfo None))
                         (fun _ => Some (mkLiquidityData None (Some 100)))))
           Hs).
Defined.

Lemma handleNewPool_effect_witness :
  suitable (analyzeTokenAndPool default_config pool_missing_mint 60000
              (fun _ => Some (mkMintInfo None)) (fun _ => Some raw_only))
    = false /\
  handleNewPool default_config bought_at_one pool_missing_mint 60000
                (fun _ => Some (mkMintInfo None)) (fun _ => Some raw_only)
                (fun _ => Some 1) (1 # 2) 60000
    = bought_at_one /\
  handleNewPool default_config bought_at_one fresh_sol_pool 60000
                (fun _ => Some (mkMintInfo None)) (fun _ => Some raw_only)
                (fun _ => Some 1) (1 # 2) 60000
    = step default_config bought_at_one
           (OpBuy "TOKEN" "POOL" 1 (1 # 2) 60000).
Proof.
  assert (suitable (analyzeTokenAndPool default_config pool_missing_mint
                      60000 (fun _ => Some (mkMintInfo None))
                      (fun _ => Some raw_only)) = false) as Hrej
    by reflexivity.
  split; [exact Hrej|]. split; [|reflexivity].
  exact (proj1 (proj2 (handleNewPool_effect default_config bought_at_one
                         pool_missing_mint 60000
                         (fun _ => Some (mkMintInfo None))
                         (fun _ => Some raw_only) (fun _ => Some 1) (1 # 2)
                         60000)) Hrej).
Defined.



Lemma ledger_positions_are_well_formed_witness :
  In first_position
     (activePositions
        (run default_config (module_load default_config [])
           [OpBuy "MINT" "POOL" 1 (1 # 2) 0;
            OpBuy "ZERO" "POOL" 0 (1 # 2) 1])) /\
  0 < buyPrice first_position /\
  0 <= 0 /\
  simulateBuy default_config bought_at_one "ZERO" "POOL" 0 (1 # 2) 1
    = (bought_at_one, None).
Proof.
  assert (In first_position
             (activePositions
                (run default_config (module_load default_config [])
                   [OpBuy "MINT" "POOL" 1 (1 # 2) 0;
                    OpBuy "ZERO" "POOL" 0 (1 # 2) 1]))) as Hin
    by (left; reflexivity).
  assert (0 <= 0) as Hz by discriminate.
  destruct (ledger_positions_are_well_formed default_config []
              [OpBuy "MINT" "POOL" 1 (1 # 2) 0;
               OpBuy "ZERO" "POOL" 0 (1 # 2) 1]) as [Hok Hrej].
  split; [exact Hin|]. split; [exact (proj1 (Hok first_position Hin))|].
  split; [exact Hz|].
  exact (Hrej bought_at_one "ZERO"%string "POOL"%string 0 (1 # 2) 1%Z Hz).
Defined.
